(** * nfeloqb: the quarterback data loader ([Resources/data_loader.py])

    A shallow embedding of the [DataLoader] class: the team-code
    normalizer, the draft-metadata backfill, the two left merges, the
    team aggregation, the top-passer isolation, the value formula and the
    [pull_data] orchestrator, followed by the properties of each.

    Conventions of the embedding.
    - A data frame is the list of its rows, in row order; each stage has a
      record for the columns the code touches.  A null cell ([NaN]/[None])
      is [None] in a column of option type.
    - The nine counting stats are int64 columns: a cell is a [Z] in the
      int64 range ([int64_cell]), and what the code computes in int64, the
      sums of the aggregation and the product [8 * sacks], wraps around
      ([int64]).  The value formula converts the cells to binary64 and
      computes in binary64 ([PrimFloat]), in the order in which Python
      evaluates the expression.
    - A file that is read has every column the code names: the records
      have them by type.  What the code does with a file that lacks one of
      them is outside the embedding.
    - Team codes, seasons and weeks are never null, in the stats file and
      in the schedule; player ids, names, bio columns, game days and
      starter columns may be null.
    - The pandas operations are written out as list functions: a left merge
      keeps the left order and emits one row per matching right row (null
      keys match each other), [groupby] leaves out rows with a null key,
      [groupby(...).agg] returns its groups in key order, and the
      two-column [sort_values] is stable.
    - A [read_csv] that raises is a source that is [None].  The instance
      attributes of the loader are a finite map from attribute names to
      Python values. *)

From Stdlib Require Import ZArith List String Ascii Lia Floats Uint63 OrdersEx Sorted.
From stdpp Require Import gmap strings list pretty.

Set Warnings "-inexact-float".
Open Scope Z_scope.

(** ** Strings: [str(int)] and [str.zfill] *)

(** [astype(str)] on an integer column: the decimal representation. *)
Definition str (z : Z) : string := pretty z.

Fixpoint zeros (n : nat) : string :=
  match n with
  | O => EmptyString
  | S n' => String "0" (zeros n')
  end.

Definition is_sign (c : ascii) : bool :=
  (Ascii.eqb c "+" || Ascii.eqb c "-")%bool.

(** [s.zfill(width)]: pad with zeros on the left up to [width], after a
    leading sign if there is one. *)
Definition zfill (width : nat) (s : string) : string :=
  let n := String.length s in
  if (width <=? n)%nat then s
  else match s with
       | String c t =>
           if is_sign c then String c (zeros (width - n) +:+ t)
           else zeros (width - n) +:+ s
       | EmptyString => zeros width
       end.

(** ** The team-code normalizer *)

(** [Series.replace(repl)] with a dict, on one cell. *)
Definition replace (repl : gmap string string) (code : string) : string :=
  match repl !! code with
  | Some canonical => canonical
  | None => code
  end.

Definition player_file_repl : gmap string string :=
  <["LA" := "LAR"]> (<["LV" := "OAK"]> ∅).

Definition games_file_repl : gmap string string :=
  <["LA" := "LAR"]> (<["LV" := "OAK"]> (<["STL" := "LAR"]> (<["SD" := "LAC"]> ∅))).

(** ** Counting stats and the value formula *)

Record Stats := mkStats {
  completions : Z;
  attempts : Z;
  passing_yards : Z;
  passing_tds : Z;
  interceptions : Z;
  sacks : Z;
  carries : Z;
  rushing_yards : Z;
  rushing_tds : Z
}.

Inductive stat_col :=
  | Completions | Attempts | PassingYards | PassingTds | Interceptions
  | Sacks | Carries | RushingYards | RushingTds.

(** [self.stat_cols] *)
Definition stat_cols : list stat_col :=
  [Completions; Attempts; PassingYards; PassingTds; Interceptions;
   Sacks; Carries; RushingYards; RushingTds].

(** [df[col]] for a stat column, on one row. *)
Definition stat (c : stat_col) (s : Stats) : Z :=
  match c with
  | Completions => completions s
  | Attempts => attempts s
  | PassingYards => passing_yards s
  | PassingTds => passing_tds s
  | Interceptions => interceptions s
  | Sacks => sacks s
  | Carries => carries s
  | RushingYards => rushing_yards s
  | RushingTds => rushing_tds s
  end.

(** An int64 cell, and the wrap-around of int64 arithmetic: the integer
    of the int64 range that is congruent modulo [2^64]. *)
Definition int64_cell (z : Z) : Prop := - 2 ^ 63 ≤ z < 2 ^ 63.

Definition int64 (z : Z) : Z := (z + 2 ^ 63) `mod` 2 ^ 64 - 2 ^ 63.

(** Conversion of an int64 cell to binary64: to the nearest binary64
    number (exact up to [2^53]). *)
Definition to_float (z : Z) : float :=
  match z with
  | Z0 => 0%float
  | Zpos _ => PrimFloat.of_uint63 (Uint63.of_Z z)
  | Zneg p =>
      if Zpos p =? 2 ^ 63 then (-9223372036854775808)%float
      else PrimFloat.opp (PrimFloat.of_uint63 (Uint63.of_Z (Zpos p)))
  end.

(** [calculate_raw_value], on one row.  [8 * df['sacks']] is an int64
    product, converted when it meets the float on its left; every other
    product has a float literal and is a binary64 product. *)
Definition calculate_raw_value (s : Stats) : float :=
  ((-2.2) * to_float (attempts s)
   + 3.7 * to_float (completions s)
   + (to_float (passing_yards s) / 5)
   + 11.3 * to_float (passing_tds s)
   - 14.1 * to_float (interceptions s)
   - to_float (int64 (8 * sacks s))
   - 1.1 * to_float (carries s)
   + 0.6 * to_float (rushing_yards s)
   + 15.9 * to_float (rushing_tds s))%float.

(** ** Data-frame operations *)

Section pandas.
Context {A B C K : Type} `{EqDecision K}.

(** [pd.merge(left, right, on=keys, how='left')]: the left rows in their
    order; a left row is paired with every right row that has its key, in
    the order of the right frame, and with nulls when there is none. *)
Definition merge_left (kl : A → K) (kr : B → K) (join : A → option B → C)
    (left : list A) (right : list B) : list C :=
  flat_map
    (λ a, match filter (λ b, kr b = kl a) right with
          | [] => [join a None]
          | matches => map (λ b, join a (Some b)) matches
          end)
    left.

(** [df.groupby(keys).head(1)]: the rows that are the first of their
    group, in frame order; a row with a null key is in no group. *)
Fixpoint groupby_head1_from (key : A → option K) (seen : list K)
    (df : list A) : list A :=
  match df with
  | [] => []
  | r :: rest =>
      match key r with
      | None => groupby_head1_from key seen rest
      | Some k =>
          if decide (k ∈ seen) then groupby_head1_from key seen rest
          else r :: groupby_head1_from key (k :: seen) rest
      end
  end.

Definition groupby_head1 (key : A → option K) (df : list A) : list A :=
  groupby_head1_from key [] df.

(** [df.groupby(keys).cumcount()]: for each row, how many earlier rows
    are in its group (null for a row with a null key). *)
Fixpoint cumcount_from (key : A → option K) (earlier : list K)
    (df : list A) : list (option Z) :=
  match df with
  | [] => []
  | r :: rest =>
      match key r with
      | None => None :: cumcount_from key earlier rest
      | Some k =>
          Some (Z.of_nat (length (filter (λ k', k' = k) earlier)))
            :: cumcount_from key (k :: earlier) rest
      end
  end.

Definition cumcount (key : A → option K) (df : list A) : list (option Z) :=
  cumcount_from key [] df.

(** The distinct non-null keys of a frame: the groups of a [groupby]. *)
Definition group_keys (key : A → option K) (df : list A) : list K :=
  remove_dups (omap key df).

(** The rows of one group. *)
Definition group_rows (key : A → option K) (k : K) (df : list A) : list A :=
  filter (λ r, key r = Some k) df.
End pandas.

Section sorting.
Context {A : Type} (leb : A → A → bool).

Fixpoint insert_sorted (x : A) (l : list A) : list A :=
  match l with
  | [] => [x]
  | y :: rest => if leb x y then x :: l else y :: insert_sorted x rest
  end.

(** A stable sort: a row goes in front of the rows it is not greater
    than, so rows that compare equal keep their frame order. *)
Definition sort_stable (l : list A) : list A := foldr insert_sorted [] l.
End sorting.

(** Lexicographic combination of comparisons. *)
Definition lex (c1 c2 : comparison) : comparison :=
  match c1 with
  | Eq => c2
  | _ => c1
  end.

Definition not_gt (c : comparison) : bool :=
  match c with
  | Gt => false
  | _ => true
  end.

(** [Series.combine_first]: the primary cell unless it is null. *)
Definition combine_first {T : Type} (primary fill : option T) : option T :=
  match primary with
  | Some v => Some v
  | None => fill
  end.

(** ** The input tables *)

(** A row of the player-week stats file.  The team column is called
    [recent_team] in the file and [team] after [retrieve_player_stats]. *)
Record PlayerStat := mkPlayerStat {
  player_id : option string;
  player_name : option string;
  player_display_name : option string;
  position : option string;
  team : string;
  season : Z;
  week : Z;
  stats : Stats
}.

(** The biographical and draft columns taken from the player file. *)
Record Bio := mkBio {
  first_name : option string;
  last_name : option string;
  birth_date : option string;
  rookie_year : option Z;
  entry_year : option Z;
  draft_number : option Z
}.

(** A row of the player file, keyed by [gsis_id]. *)
Record PlayerInfo := mkPlayerInfo {
  gsis_id : option string;
  info : Bio
}.

(** A row of the manual draft file, its four data columns under the names
    they have after the rename to [*_fill]. *)
Record DraftFill := mkDraftFill {
  fill_player_id : option string;
  rookie_year_fill : option Z;
  draft_number_fill : option Z;
  entry_year_fill : option Z;
  birth_date_fill : option string
}.

(** A row of the schedule file. *)
Record Game := mkGame {
  game_id : string;
  gameday : option string;
  game_season : Z;
  game_week : Z;
  home_team : string;
  away_team : string;
  home_qb_id : option string;
  home_qb_name : option string;
  away_qb_id : option string;
  away_qb_name : option string
}.

(** What the four reads of a run return; [None] is a read that raised. *)
Record Sources := mkSources {
  player_stats_csv : option (list PlayerStat);
  player_info_csv : option (list PlayerInfo);
  missing_draft_csv : option (list DraftFill);
  game_data_csv : option (list Game)
}.

(** ** The working tables *)

(** A stat row with the player-file columns merged on. *)
Record PlayerMeta := mkPlayerMeta {
  meta_stat : PlayerStat;
  meta_bio : Bio
}.

(** A row of [game_flat]: a game seen from one of its two teams. *)
Record GameFlat := mkGameFlat {
  flat_game_id : string;
  flat_gameday : option string;
  flat_season : Z;
  flat_week : Z;
  flat_team : string;
  opponent : string;
  starter_id : option string;
  starter_name : option string;
  opponent_starter_id : option string;
  opponent_starter_name : option string
}.

(** A player row with the game columns merged on; [row_game] is [None]
    when no game matched, that is when all the game columns are null. *)
Record PlayerRow := mkPlayerRow {
  row_meta : PlayerMeta;
  row_game : option GameFlat
}.

Definition row_stat (r : PlayerRow) : PlayerStat := meta_stat (row_meta r).
Definition row_game_id (r : PlayerRow) : option string :=
  flat_game_id <$> row_game r.
Definition row_gameday (r : PlayerRow) : option string :=
  row_game r ≫= flat_gameday.
Definition row_opponent (r : PlayerRow) : option string :=
  opponent <$> row_game r.

(** A row of the team table: the five grouping columns and the sums. *)
Record TeamRow := mkTeamRow {
  team_game_id : string;
  team_season : Z;
  team_week : Z;
  team_gameday : string;
  team_team : string;
  team_stats : Stats
}.

(** The team table once [team_VALUE] is added and the stats are dropped. *)
Record TeamModelRow := mkTeamModelRow {
  tm_game_id : string;
  tm_season : Z;
  tm_week : Z;
  tm_gameday : string;
  tm_team : string;
  tm_team_VALUE : float
}.

(** The identity and context columns that [format_top_passer] keeps. *)
Record PasserInfo := mkPasserInfo {
  pi_game_id : option string;
  pi_season : Z;
  pi_week : Z;
  pi_gameday : option string;
  pi_team : string;
  pi_opponent : option string;
  pi_player_id : option string;
  pi_player_name : option string;
  pi_player_display_name : option string;
  start_number : option Z;
  pi_rookie_year : option Z;
  pi_entry_year : option Z;
  pi_draft_number : option Z
}.

(** A row of [format_top_passer]: those columns and the nine stats. *)
Record TopPasser := mkTopPasser {
  tp_info : PasserInfo;
  tp_stats : Stats
}.

(** A row of the model table: the kept columns and the two values. *)
Record ModelRow := mkModelRow {
  model_info : PasserInfo;
  player_VALUE : float;
  team_VALUE : option float
}.

(** ** [retrieve_player_stats] *)

Definition set_team (code : string) (r : PlayerStat) : PlayerStat :=
  {| player_id := player_id r; player_name := player_name r;
     player_display_name := player_display_name r; position := position r;
     team := code; season := season r; week := week r; stats := stats r |}.

(** Keep the quarterback rows, normalize the team code with the
    player-side table; [None] when the read raised. *)
Definition retrieve_player_stats (src : Sources) : option (list PlayerStat) :=
  df ← player_stats_csv src;
  let df := filter (λ r, position r = Some "QB") df in
  Some (map (λ r, set_team (replace player_file_repl (team r)) r) df).

(** ** [retrieve_player_meta] *)

Definition null_bio : Bio :=
  {| first_name := None; last_name := None; birth_date := None;
     rookie_year := None; entry_year := None; draft_number := None |}.

(** The player file reduced to the first row of each [gsis_id], then
    merged onto the stat rows by [player_id]. *)
Definition merge_player_meta (df : list PlayerStat)
    (meta : list PlayerInfo) : list PlayerMeta :=
  let meta := groupby_head1 gsis_id meta in
  merge_left player_id gsis_id
    (λ r m, {| meta_stat := r; meta_bio := from_option info null_bio m |})
    df meta.

(** The loop over the four columns: [combine_first] with the fill column
    of the merged manual row (null when no manual row matched), the fill
    columns then being dropped. *)
Definition fill_bio (bio : Bio) (fill : option DraftFill) : Bio :=
  {| first_name := first_name bio;
     last_name := last_name bio;
     birth_date := combine_first (birth_date bio) (fill ≫= birth_date_fill);
     rookie_year := combine_first (rookie_year bio) (fill ≫= rookie_year_fill);
     entry_year := combine_first (entry_year bio) (fill ≫= entry_year_fill);
     draft_number :=
       combine_first (draft_number bio) (fill ≫= draft_number_fill) |}.

(** [None] stands for the exception of an unreadable manual file, which
    the caller's handler turns into its own [None]. *)
Definition add_missing_draft_data (src : Sources)
    (df : list PlayerMeta) : option (list PlayerMeta) :=
  missing_draft ← missing_draft_csv src;
  let missing_draft := groupby_head1 fill_player_id missing_draft in
  let df :=
    merge_left (λ r, player_id (meta_stat r)) fill_player_id
      (λ r fill, (r, fill)) df missing_draft in
  Some (map (λ rf, {| meta_stat := meta_stat rf.1;
                      meta_bio := fill_bio (meta_bio rf.1) rf.2 |}) df).

Definition retrieve_player_meta (src : Sources)
    (df : list PlayerStat) : option (list PlayerMeta) :=
  meta ← player_info_csv src;
  add_missing_draft_data src (merge_player_meta df meta).

(** ** The schedule: normalization, [game_id], the two views *)

Definition replace_team_names (g : Game) : Game :=
  {| game_id := game_id g; gameday := gameday g;
     game_season := game_season g; game_week := game_week g;
     home_team := replace games_file_repl (home_team g);
     away_team := replace games_file_repl (away_team g);
     home_qb_id := home_qb_id g; home_qb_name := home_qb_name g;
     away_qb_id := away_qb_id g; away_qb_name := away_qb_name g |}.

Definition rebuild_game_id (g : Game) : Game :=
  {| game_id :=
       str (game_season g) +:+ "_" +:+ zfill 2 (str (game_week g)) +:+ "_"
         +:+ away_team g +:+ "_" +:+ home_team g;
     gameday := gameday g;
     game_season := game_season g; game_week := game_week g;
     home_team := home_team g; away_team := away_team g;
     home_qb_id := home_qb_id g; home_qb_name := home_qb_name g;
     away_qb_id := away_qb_id g; away_qb_name := away_qb_name g |}.

(** The schedule as [add_game_data] keeps it: names replaced first, the
    [game_id] column then overwritten from the replaced names. *)
Definition normalize_games (game : list Game) : list Game :=
  map rebuild_game_id (map replace_team_names game).

Definition home_view (g : Game) : GameFlat :=
  {| flat_game_id := game_id g; flat_gameday := gameday g;
     flat_season := game_season g; flat_week := game_week g;
     flat_team := home_team g; opponent := away_team g;
     starter_id := home_qb_id g; starter_name := home_qb_name g;
     opponent_starter_id := away_qb_id g;
     opponent_starter_name := away_qb_name g |}.

Definition away_view (g : Game) : GameFlat :=
  {| flat_game_id := game_id g; flat_gameday := gameday g;
     flat_season := game_season g; flat_week := game_week g;
     flat_team := away_team g; opponent := home_team g;
     starter_id := away_qb_id g; starter_name := away_qb_name g;
     opponent_starter_id := home_qb_id g;
     opponent_starter_name := home_qb_name g |}.

(** [pd.concat] of the home views and the away views. *)
Definition game_flat (game : list Game) : list GameFlat :=
  map home_view game ++ map away_view game.

Definition stat_key (r : PlayerMeta) : Z * Z * string :=
  (season (meta_stat r), week (meta_stat r), team (meta_stat r)).

Definition flat_key (g : GameFlat) : Z * Z * string :=
  (flat_season g, flat_week g, flat_team g).

(** The merge of [add_game_data], on [season], [week] and [team]. *)
Definition merge_game (df : list PlayerMeta)
    (flat : list GameFlat) : list PlayerRow :=
  merge_left stat_key flat_key
    (λ r g, {| row_meta := r; row_game := g |}) df flat.

(** ** [aggregate_team_stats] *)

Inductive team_field := TeamField | OpponentField.

Definition team_field_cell (tf : team_field) (r : PlayerRow) : option string :=
  match tf with
  | TeamField => Some (team (row_stat r))
  | OpponentField => row_opponent r
  end.

(** The grouping columns: game_id, season, week, gameday and the team
    field. *)
Definition team_key : Type := string * Z * Z * string * string.

Definition team_group_key (tf : team_field) (r : PlayerRow) : option team_key :=
  gid ← row_game_id r;
  day ← row_gameday r;
  t ← team_field_cell tf r;
  Some (gid, season (row_stat r), week (row_stat r), day, t).

Definition team_key_compare (a b : team_key) : comparison :=
  let '(g1, s1, w1, d1, t1) := a in
  let '(g2, s2, w2, d2, t2) := b in
  lex (String.compare g1 g2)
    (lex (s1 ?= s2)
       (lex (w1 ?= w2) (lex (String.compare d1 d2) (String.compare t1 t2)))).

Definition team_key_leb (a b : team_key) : bool :=
  not_gt (team_key_compare a b).

Definition zero_stats : Stats :=
  {| completions := 0; attempts := 0; passing_yards := 0; passing_tds := 0;
     interceptions := 0; sacks := 0; carries := 0; rushing_yards := 0;
     rushing_tds := 0 |}.

(** One step of an int64 ['sum']: the columns are added in int64. *)
Definition add_stats (a b : Stats) : Stats :=
  {| completions := int64 (completions a + completions b);
     attempts := int64 (attempts a + attempts b);
     passing_yards := int64 (passing_yards a + passing_yards b);
     passing_tds := int64 (passing_tds a + passing_tds b);
     interceptions := int64 (interceptions a + interceptions b);
     sacks := int64 (sacks a + sacks b);
     carries := int64 (carries a + carries b);
     rushing_yards := int64 (rushing_yards a + rushing_yards b);
     rushing_tds := int64 (rushing_tds a + rushing_tds b) |}.

(** The nine ['sum'] aggregations over the rows of a group. *)
Definition sum_stats (rows : list PlayerRow) : Stats :=
  foldr (λ r acc, add_stats (stats (row_stat r)) acc) zero_stats rows.

Definition team_row (k : team_key) (s : Stats) : TeamRow :=
  let '(gid, sn, wk, day, t) := k in
  {| team_game_id := gid; team_season := sn; team_week := wk;
     team_gameday := day; team_team := t; team_stats := s |}.

(** One row per group, the groups in key order, the team field under the
    name [team]. *)
Definition aggregate_team_stats (df : list PlayerRow)
    (tf : team_field) : list TeamRow :=
  map (λ k, team_row k (sum_stats (group_rows (team_group_key tf) k df)))
    (sort_stable team_key_leb (group_keys (team_group_key tf) df)).

(** ** [iso_top_passer] and [format_top_passer] *)

(** Nulls sort last. *)
Definition compare_na_last (a b : option string) : comparison :=
  match a, b with
  | Some x, Some y => String.compare x y
  | Some _, None => Lt
  | None, Some _ => Gt
  | None, None => Eq
  end.

(** [by=['game_id', 'attempts'], ascending=[True, False]] *)
Definition top_passer_compare (a b : PlayerRow) : comparison :=
  lex (compare_na_last (row_game_id a) (row_game_id b))
    (attempts (stats (row_stat b)) ?= attempts (stats (row_stat a))).

Definition top_passer_leb (a b : PlayerRow) : bool :=
  not_gt (top_passer_compare a b).

Definition passer_group_key (r : PlayerRow) : option (string * string) :=
  gid ← row_game_id r; Some (gid, team (row_stat r)).

Definition iso_top_passer (df : list PlayerRow) : list PlayerRow :=
  groupby_head1 passer_group_key (sort_stable top_passer_leb df).

Definition passer_info (r : PlayerRow) (count : option Z) : PasserInfo :=
  {| pi_game_id := row_game_id r;
     pi_season := season (row_stat r);
     pi_week := week (row_stat r);
     pi_gameday := row_gameday r;
     pi_team := team (row_stat r);
     pi_opponent := row_opponent r;
     pi_player_id := player_id (row_stat r);
     pi_player_name := player_name (row_stat r);
     pi_player_display_name := player_display_name (row_stat r);
     start_number := (λ n, n + 1) <$> count;
     pi_rookie_year := rookie_year (meta_bio (row_meta r));
     pi_entry_year := entry_year (meta_bio (row_meta r));
     pi_draft_number := draft_number (meta_bio (row_meta r)) |}.

Definition format_top_passer (df : list PlayerRow) : list TopPasser :=
  zip_with
    (λ r count, {| tp_info := passer_info r count;
                   tp_stats := stats (row_stat r) |})
    df (cumcount (λ r, player_id (row_stat r)) df).

(** ** The two value columns and the final merge *)

(** [df_team['team_VALUE'] = calculate_raw_value(df_team)], stats dropped. *)
Definition team_value_table (df_team : list TeamRow) : list TeamModelRow :=
  map (λ t, {| tm_game_id := team_game_id t; tm_season := team_season t;
               tm_week := team_week t; tm_gameday := team_gameday t;
               tm_team := team_team t;
               tm_team_VALUE := calculate_raw_value (team_stats t) |})
    df_team.

(** [df['player_VALUE'] = calculate_raw_value(df)], stats dropped. *)
Definition player_value_table (df : list TopPasser) : list (PasserInfo * float) :=
  map (λ r, (tp_info r, calculate_raw_value (tp_stats r))) df.

(** The merge of [team_VALUE] onto the player rows, on [game_id], [team]. *)
Definition merge_team_value (df : list (PasserInfo * float))
    (df_team : list TeamModelRow) : list ModelRow :=
  merge_left (λ r, (pi_game_id r.1, pi_team r.1))
    (λ t, (Some (tm_game_id t), tm_team t))
    (λ r t, {| model_info := r.1; player_VALUE := r.2;
               team_VALUE := tm_team_VALUE <$> t |})
    df df_team.

(** The team table of a run, from the fully merged player rows. *)
Definition team_table (df : list PlayerRow) : list TeamModelRow :=
  team_value_table (aggregate_team_stats df TeamField).

(** The model table of a run, from the fully merged player rows. *)
Definition model_table (df : list PlayerRow) : list ModelRow :=
  merge_team_value
    (player_value_table (format_top_passer (iso_top_passer df)))
    (team_table df).

(** ** The loader object and [pull_data] *)

Inductive DataFrame :=
  | ModelFrame (rows : list ModelRow)
  | TeamFrame (rows : list TeamModelRow)
  | GameFrame (rows : list Game).

(** The Python values that the attributes of a loader hold. *)
Inductive pyval :=
  | PyNone
  | PyStr (s : string)
  | PyDict (d : gmap string string)
  | PyStatCols (cols : list stat_col)
  | PyFrame (df : DataFrame).

Inductive exn :=
  | AttributeError (msg : string).

(** How a call ends: it returns, or an exception leaves it. *)
Inductive outcome :=
  | Returned
  | Raised (e : exn).

(** [add_game_data]: the three results are the attributes of the loader
    after the call and the returned frame ([None] for Python's [None]).
    The schedule is stored under [games] as soon as it is rebuilt; a [df]
    that is [None] makes [pd.merge] raise, which the handler turns into
    [None] as it does an unreadable schedule. *)
Definition add_game_data (src : Sources) (self : gmap string pyval)
    (df : option (list PlayerMeta))
    : gmap string pyval * option (list PlayerRow) :=
  match game_data_csv src with
  | None => (self, None)
  | Some game =>
      let game := normalize_games game in
      let self := <["games" := PyFrame (GameFrame game)]> self in
      match df with
      | None => (self, None)
      | Some df => (self, Some (merge_game df (game_flat game)))
      end
  end.

(** What [aggregate_team_stats] raises when it is handed [None]. *)
Definition none_has_no_groupby : exn :=
  AttributeError "'NoneType' object has no attribute 'groupby'".

(** [pull_data].  The loop body runs at most once ([df] is [None] at its
    end) and only the result of [retrieve_player_stats] is tested; the
    results of the two later stages go to the next call as they are. *)
Definition pull_data (src : Sources) (self : gmap string pyval)
    : gmap string pyval * outcome :=
  match retrieve_player_stats src with
  | None => (self, Returned)
  | Some df =>
      let df := retrieve_player_meta src df in
      let '(self, df) := add_game_data src self df in
      match df with
      | None => (self, Raised none_has_no_groupby)
      | Some df =>
          (<["model_df" := PyFrame (ModelFrame (model_table df))]> self,
           Returned)
      end
  end.

(** The attributes that [__init__] sets before it calls [pull_data]. *)
Definition init_attrs (data_folder : string) : gmap string pyval :=
  let self : gmap string pyval := ∅ in
  let self := <["model_df" := PyNone]> self in
  let self := <["games_df" := PyNone]> self in
  let self :=
    <["player_stats_url" :=
        PyStr "https://github.com/nflverse/nflverse-data/releases/download/player_stats/player_stats.csv.gz"]>
      self in
  let self :=
    <["player_info_url" :=
        PyStr "https://github.com/nflverse/nflverse-data/releases/download/players/players.csv"]>
      self in
  let self :=
    <["game_data_url" :=
        PyStr "https://github.com/nflverse/nfldata/raw/master/data/games.csv"]>
      self in
  let self := <["player_file_repl" := PyDict player_file_repl]> self in
  let self := <["games_file_repl" := PyDict games_file_repl]> self in
  let self := <["stat_cols" := PyStatCols stat_cols]> self in
  <["missing_draft_data" :=
      PyStr (data_folder +:+ "/Manual Data/missing_draft_data.csv")]>
    self.

(** [__init__]: the attributes are set, then [pull_data] runs. *)
Definition init (data_folder : string) (src : Sources)
    : gmap string pyval * outcome :=
  pull_data src (init_attrs data_folder).

(** An attribute of the loader holds the frame [df]. *)
Definition holds (self : gmap string pyval) (df : DataFrame) : Prop :=
  ∃ attr : string, self !! attr = Some (PyFrame df).

(** ** The backfill in the words of its specification *)

(** The first row of the manual file for a player id. *)
Fixpoint first_fill_row (pid : string)
    (missing : list DraftFill) : option DraftFill :=
  match missing with
  | [] => None
  | m :: rest =>
      if decide (fill_player_id m = Some pid) then Some m
      else first_fill_row pid rest
  end.

(** The manual row that backfills a player row, if any. *)
Definition backfill_of (missing : list DraftFill)
    (r : PlayerMeta) : option DraftFill :=
  pid ← player_id (meta_stat r); first_fill_row pid missing.

(** "First non-null wins": the primary value if present, else the
    backfill value. *)
Definition first_non_null {T : Type} (primary : option T)
    (fill : option DraftFill) (column : DraftFill → option T) : option T :=
  match primary with
  | Some v => Some v
  | None => fill ≫= column
  end.

(** ** Groups and sums in the words of the specification *)

(** The five grouping columns of a team row. *)
Definition team_row_key (t : TeamRow) : team_key :=
  (team_game_id t, team_season t, team_week t, team_gameday t, team_team t).

(** The sum of one stat column over player rows. *)
Definition column_sum (c : stat_col) (rows : list PlayerRow) : Z :=
  foldr Z.add 0 (map (λ r, stat c (stats (row_stat r))) rows).

(** The game merge found a game for the row. *)
Definition has_game (r : PlayerRow) : Prop := is_Some (row_game r).

Global Instance has_game_dec (r : PlayerRow) : Decision (has_game r).
Proof. unfold has_game. apply _. Defined.

(** ** The value in the words of the specification *)

(** Every stat of the row is an int64 cell. *)
Definition int64_stats (s : Stats) : Prop :=
  ∀ c : stat_col, int64_cell (stat c s).

(** The integer [z] as a binary64 number: rounded to nearest. *)
Definition SFint (z : Z) : spec_float := binary_normalize prec emax z 0 false.

(** A coefficient written with one decimal, as a binary64 number: the
    correctly rounded quotient of its tenths by ten. *)
Definition SFdec (tenths : Z) : spec_float := SF64div (SFint tenths) (SFint 10).

(** The formula, every operation the correctly rounded binary64 operation
    of IEEE 754, in the order of the expression. *)
Definition value_binary64 (s : Stats) : spec_float :=
  SF64add
    (SF64add
       (SF64sub
          (SF64sub
             (SF64sub
                (SF64add
                   (SF64add
                      (SF64add
                         (SF64mul (SFdec (-22)) (SFint (attempts s)))
                         (SF64mul (SFdec 37) (SFint (completions s))))
                      (SF64div (SFint (passing_yards s)) (SFint 5)))
                   (SF64mul (SFdec 113) (SFint (passing_tds s))))
                (SF64mul (SFdec 141) (SFint (interceptions s))))
             (SFint (int64 (8 * sacks s))))
          (SF64mul (SFdec 11) (SFint (carries s))))
       (SF64mul (SFdec 6) (SFint (rushing_yards s))))
    (SF64mul (SFdec 159) (SFint (rushing_tds s))).

(** Ten times the formula, in exact integer arithmetic. *)
Definition ten_times_value (s : Stats) : Z :=
  - 22 * attempts s + 37 * completions s + 2 * passing_yards s
  + 113 * passing_tds s - 141 * interceptions s - 80 * sacks s
  - 11 * carries s + 6 * rushing_yards s + 159 * rushing_tds s.

(** The binary64 number [x] is exactly the fraction [num / den]. *)
Definition represents (x : spec_float) (num den : Z) : Prop :=
  match x with
  | S754_zero _ => num = 0
  | S754_finite sign m e =>
      let sm := if sign then Zneg m else Zpos m in
      if 0 <=? e then sm * 2 ^ e * den = num else sm * den = num * 2 ^ (- e)
  | _ => False
  end.

(** ** Groups and matches in the words of the specification *)

(** The player row is in the group of a team row: it has the game_id,
    season, week and gameday of the key, none of them null, and the key's
    team in its team field. *)
Definition in_team_group (tf : team_field) (k : team_key)
    (r : PlayerRow) : Prop :=
  let '(gid, sn, wk, day, t) := k in
  row_game_id r = Some gid
  ∧ season (row_stat r) = sn
  ∧ week (row_stat r) = wk
  ∧ row_gameday r = Some day
  ∧ match tf with
    | TeamField => team (row_stat r) = t
    | OpponentField => row_opponent r = Some t
    end.

Global Instance in_team_group_dec (tf : team_field) (k : team_key)
    (r : PlayerRow) : Decision (in_team_group tf k r).
Proof.
  destruct k as [[[[gid sn] wk] day] t]. unfold in_team_group.
  destruct tf; apply _.
Defined.

(** The schedule row is one of the player row's season, week and team. *)
Definition matches_row (r : PlayerMeta) (g : GameFlat) : Prop :=
  flat_season g = season (meta_stat r)
  ∧ flat_week g = week (meta_stat r)
  ∧ flat_team g = team (meta_stat r).

Global Instance matches_row_dec (r : PlayerMeta) (g : GameFlat) :
  Decision (matches_row r g).
Proof. unfold matches_row. apply _. Defined.

(** ** Sample data *)

Definition sample_stats (att : Z) : Stats :=
  {| completions := 20; attempts := att; passing_yards := 250;
     passing_tds := 2; interceptions := 1; sacks := 3; carries := 3;
     rushing_yards := 10; rushing_tds := 0 |}.

Definition sample_stat (pid tm : string) (wk att : Z) : PlayerStat :=
  {| player_id := Some pid; player_name := Some pid;
     player_display_name := Some pid; position := Some "QB";
     team := tm; season := 2020; week := wk; stats := sample_stats att |}.

Definition sample_game (day home away : string) (wk : Z) : Game :=
  {| game_id := "raw"; gameday := Some day; game_season := 2020;
     game_week := wk; home_team := home; away_team := away;
     home_qb_id := None; home_qb_name := None;
     away_qb_id := None; away_qb_name := None |}.

Definition sample_info (pid : string) (draft : option Z) : PlayerInfo :=
  {| gsis_id := Some pid;
     info := {| first_name := Some "F"; last_name := Some "L";
                birth_date := None; rookie_year := None;
                entry_year := None; draft_number := draft |} |}.

Definition sample_fill (pid : string) (draft : Z) : DraftFill :=
  {| fill_player_id := Some pid; rookie_year_fill := Some 2018;
     draft_number_fill := Some draft; entry_year_fill := Some 2018;
     birth_date_fill := Some "1995-01-01" |}.

(** A run in which every read succeeds: in week 1, two quarterbacks of LV
    tied on 30 attempts, one of KC and one of DEN, and the LV at KC game;
    the manual file has two rows for the first quarterback. *)
Definition sample_sources : Sources :=
  {| player_stats_csv :=
       Some [sample_stat "00-1" "LV" 1 30; sample_stat "00-2" "LV" 1 30;
             sample_stat "00-3" "KC" 1 25; sample_stat "00-4" "DEN" 1 40];
     player_info_csv := Some [sample_info "00-1" None; sample_info "00-2" (Some 3)];
     missing_draft_csv := Some [sample_fill "00-1" 7; sample_fill "00-2" 9;
                                sample_fill "00-1" 8];
     game_data_csv := Some [sample_game "2020-09-13" "KC" "LV" 1] |}.

(** Two merged rows, the first with a null draft_number. *)
Definition sample_meta : list PlayerMeta :=
  [ {| meta_stat := sample_stat "00-1" "OAK" 1 30;
       meta_bio := info (sample_info "00-1" None) |};
    {| meta_stat := sample_stat "00-2" "OAK" 1 30;
       meta_bio := info (sample_info "00-2" (Some 3)) |} ].

(** The stat rows and the merged rows of the sample run. *)
Definition sample_df : list PlayerStat :=
  default [] (retrieve_player_stats sample_sources).

Definition sample_merged : list PlayerMeta :=
  default [] (retrieve_player_meta sample_sources sample_df).

Definition sample_rows : list PlayerRow :=
  default [] (add_game_data sample_sources ∅ (Some sample_merged)).2.

(** A schedule file that lists two week-1 games at KC. *)
Definition double_header_sources : Sources :=
  {| player_stats_csv := Some [sample_stat "00-3" "KC" 1 25];
     player_info_csv := Some [];
     missing_draft_csv := Some [];
     game_data_csv := Some [sample_game "2020-09-13" "KC" "LV" 1;
                            sample_game "2020-09-14" "KC" "DEN" 1] |}.

(** Two OAK passers of one game with 10 and 20 attempts. *)
Definition sample_flat : GameFlat :=
  away_view (rebuild_game_id
               (replace_team_names (sample_game "2020-09-13" "KC" "LV" 1))).

Definition two_passers : list PlayerRow :=
  [ {| row_meta := {| meta_stat := sample_stat "00-1" "OAK" 1 10;
                      meta_bio := null_bio |};
       row_game := Some sample_flat |};
    {| row_meta := {| meta_stat := sample_stat "00-2" "OAK" 1 20;
                      meta_bio := null_bio |};
       row_game := Some sample_flat |} ].

(** A run in which only the schedule cannot be read. *)
Definition schedule_unreachable : Sources :=
  {| player_stats_csv := player_stats_csv sample_sources;
     player_info_csv := player_info_csv sample_sources;
     missing_draft_csv := missing_draft_csv sample_sources;
     game_data_csv := None |}.

(** A run in which only the player file cannot be read. *)
Definition players_unreachable : Sources :=
  {| player_stats_csv := player_stats_csv sample_sources;
     player_info_csv := None;
     missing_draft_csv := missing_draft_csv sample_sources;
     game_data_csv := game_data_csv sample_sources |}.

(** A run whose stats file has a quarterback of STL and whose schedule has
    the home game of STL in his week. *)
Definition relocated_sources : Sources :=
  {| player_stats_csv := Some [sample_stat "00-5" "STL" 1 20];
     player_info_csv := Some [];
     missing_draft_csv := Some [];
     game_data_csv := Some [sample_game "2020-09-13" "STL" "KC" 1] |}.

(** A row with three carries and nothing else. *)
Definition three_carries : Stats :=
  {| completions := 0; attempts := 0; passing_yards := 0; passing_tds := 0;
     interceptions := 0; sacks := 0; carries := 3; rushing_yards := 0;
     rushing_tds := 0 |}.

(** Two OAK passers of one game whose attempts add up to [2^63]. *)
Definition overflow_passers : list PlayerRow :=
  [ {| row_meta := {| meta_stat := sample_stat "00-1" "OAK" 1 (2 ^ 62);
                      meta_bio := null_bio |};
       row_game := Some sample_flat |};
    {| row_meta := {| meta_stat := sample_stat "00-2" "OAK" 1 (2 ^ 62);
                      meta_bio := null_bio |};
       row_game := Some sample_flat |} ].

(** A passer of a game whose gameday is null in the schedule. *)
Definition no_gameday_passer : PlayerRow :=
  {| row_meta := {| meta_stat := sample_stat "00-1" "OAK" 1 30;
                    meta_bio := null_bio |};
     row_game :=
       Some (away_view
               (rebuild_game_id
                  (replace_team_names
                     {| game_id := "raw"; gameday := None;
                        game_season := 2020; game_week := 1;
                        home_team := "KC"; away_team := "LV";
                        home_qb_id := None; home_qb_name := None;
                        away_qb_id := None; away_qb_name := None |}))) |}.

(** * Properties *)

(** ** Strings *)





(** ** The team-code normalizer *)

(** C10: for every team code and either mapping table, normalization
    returns the mapped code when the code is a key of the table and the
    code itself when it is not (it is total, so nothing is raised).  The
    player-side and schedule-side tables are different tables: they agree
    on LA and LV, and only the schedule side maps STL and SD.  The stats
    loader applies the player-side table to the team of every quarterback
    row, the schedule loader the schedule-side table to the home and away
    team of every game. *)
Theorem replace_mapped_or_unchanged :
  (∀ (repl : gmap string string) (code : string),
      match repl !! code with
      | Some canonical => replace repl code = canonical
      | None => replace repl code = code
      end)
  ∧ player_file_repl ≠ games_file_repl
  ∧ replace player_file_repl "LA" = "LAR"
  ∧ replace player_file_repl "LV" = "OAK"
  ∧ replace player_file_repl "STL" = "STL"
  ∧ replace player_file_repl "SD" = "SD"
  ∧ replace games_file_repl "LA" = "LAR"
  ∧ replace games_file_repl "LV" = "OAK"
  ∧ replace games_file_repl "STL" = "LAR"
  ∧ replace games_file_repl "SD" = "LAC"
  ∧ (∀ (src : Sources) (raw : list PlayerStat),
       player_stats_csv src = Some raw →
       ∃ out, retrieve_player_stats src = Some out
              ∧ Forall2
                  (λ r r', team r' = replace player_file_repl (team r))
                  (filter (λ r, position r = Some "QB") raw) out)
  ∧ (∀ game : list Game,
       Forall2
         (λ g g', home_team g' = replace games_file_repl (home_team g)
                  ∧ away_team g' = replace games_file_repl (away_team g))
         game (normalize_games game)).
Proof.
  split.
  { intros repl code. unfold replace. by destruct (repl !! code). }
  split.
  { intros Heq.
    assert (H : player_file_repl !! "STL" = games_file_repl !! "STL")
      by (by rewrite Heq).
    vm_compute in H. discriminate. }
  do 8 (split; [by vm_compute |]).
  split.
  - intros src raw Hread. unfold retrieve_player_stats. rewrite Hread.
    eexists. split; [done |].
    apply Forall2_fmap_r, Forall_Forall2_diag, Forall_forall. by intros r _.
  - intros game. unfold normalize_games. rewrite map_map.
    apply Forall2_fmap_r, Forall_Forall2_diag, Forall_forall. by intros g _.
Qed.

(** ** The schedule *)



(** A week-1 game of 2020 at LV against KC: the id is built with OAK,
    and over the id that the file had. *)
Example game_id_of_LV_home_game :
  map (λ g, (game_id g, home_team g, away_team g))
    (normalize_games [sample_game "2020-09-13" "LV" "KC" 1;
                      sample_game "2020-11-22" "SD" "STL" 11])
  = [("2020_01_KC_OAK", "OAK", "KC"); ("2020_11_LAR_LAC", "LAC", "LAR")].
Proof. by vm_compute. Qed.

(** ** Data-frame operations *)

Section pandas_facts.
Context {A B C K : Type} `{EqDecision K}.
Implicit Types (seen : list K) (k : K).

(** The rows that [head(1)] keeps have pairwise different, non-null
    keys, none of them seen before. *)
Lemma groupby_head1_from_keys (key : A → option K) seen (df : list A) :
  ∃ ks : list K,
    map key (groupby_head1_from key seen df) = map Some ks
    ∧ NoDup ks ∧ ∀ k, k ∈ ks → k ∉ seen.
Proof.
  revert seen. induction df as [| r rest IH]; intros seen; simpl.
  { exists []. repeat split; [constructor | intros k Hk; inversion Hk]. }
  destruct (key r) as [k0 |] eqn:Hkey; [| apply IH].
  destruct (decide (k0 ∈ seen)) as [Hin | Hnin]; [apply IH |].
  destruct (IH (k0 :: seen)) as (ks & Hmap & Hnd & Hfresh).
  exists (k0 :: ks). simpl. rewrite Hkey, Hmap. split; [done |].
  split.
  - constructor; [| done]. intros Hk. apply (Hfresh _ Hk). left.
  - intros k Hk. apply elem_of_cons in Hk as [-> | Hk]; [done |].
    intros Hs. apply (Hfresh _ Hk). by right.
Qed.

Lemma groupby_head1_keys (key : A → option K) (df : list A) :
  ∃ ks : list K,
    map key (groupby_head1 key df) = map Some ks ∧ NoDup ks.
Proof.
  destruct (groupby_head1_from_keys key [] df) as (ks & ? & ? & _).
  by exists ks.
Qed.

Lemma groupby_head1_NoDup (key : A → option K) (df : list A) :
  NoDup (map key (groupby_head1 key df)).
Proof.
  destruct (groupby_head1_keys key df) as (ks & -> & Hnd).
  apply (NoDup_fmap_2 Some), Hnd.
Qed.

(** Within one group, [head(1)] keeps the first row of the frame. *)
Lemma groupby_head1_from_group (key : A → option K) seen (df : list A) k :
  filter (λ r, key r = Some k) (groupby_head1_from key seen df)
  = if decide (k ∈ seen) then []
    else take 1 (filter (λ r, key r = Some k) df).
Proof.
  revert seen. induction df as [| r rest IH]; intros seen; simpl.
  { by destruct (decide (k ∈ seen)). }
  destruct (key r) as [k0 |] eqn:Hkey.
  - destruct (decide (k0 ∈ seen)) as [Hin | Hnin].
    + rewrite IH. destruct (decide (k ∈ seen)); [done |].
      rewrite (filter_cons_False _ r) by (rewrite Hkey; congruence).
      done.
    + destruct (decide (k0 = k)) as [-> | Hne].
      * rewrite !filter_cons_True by done. rewrite IH.
        rewrite decide_True by left. by rewrite decide_False by done.
      * rewrite !filter_cons_False by (rewrite Hkey; congruence).
        rewrite IH.
        destruct (decide (k ∈ seen)) as [Hk | Hk].
        -- rewrite decide_True by (by right). done.
        -- rewrite decide_False; [done |].
           intros Hk'. apply elem_of_cons in Hk' as [-> | ?]; done.
  - rewrite IH. rewrite (filter_cons_False _ r) by (rewrite Hkey; congruence).
    done.
Qed.

Lemma groupby_head1_group (key : A → option K) (df : list A) k :
  filter (λ r, key r = Some k) (groupby_head1 key df)
  = take 1 (filter (λ r, key r = Some k) df).
Proof. unfold groupby_head1. by rewrite groupby_head1_from_group. Qed.

(** No kept row has a null key. *)
Lemma groupby_head1_null (key : A → option K) (df : list A)
    (P : A → Prop) `{∀ r, Decision (P r)} :
  (∀ r, P r → key r = None) →
  filter P (groupby_head1 key df) = [].
Proof.
  intros HP.
  destruct (groupby_head1_keys key df) as (ks & Hmap & _).
  revert ks Hmap. induction (groupby_head1 key df) as [| r l IH];
    intros ks Hmap; [done |].
  destruct ks as [| k ks]; [done |]. simpl in Hmap.
  injection Hmap as Hr Hl.
  rewrite filter_cons_False; [by apply (IH ks) |].
  intros HPr. apply HP in HPr. congruence.
Qed.

Lemma groupby_head1_subset (key : A → option K) seen (df : list A) r :
  r ∈ groupby_head1_from key seen df → r ∈ df.
Proof.
  revert seen. induction df as [| r0 rest IH]; intros seen; simpl; [done |].
  destruct (key r0) as [k0 |]; [destruct (decide (k0 ∈ seen)) |].
  - intros Hr. right. by eapply IH.
  - intros Hr. apply elem_of_cons in Hr as [-> | Hr]; [left |].
    right. by eapply IH.
  - intros Hr. right. by eapply IH.
Qed.
End pandas_facts.

Section merge_facts.
Context {A B C K : Type} `{EqDecision K}.
Context (kl : A → K) (kr : B → K) (join : A → option B → C).

(** A left merge drops no left row. *)
Lemma merge_left_length_ge (left : list A) (right : list B) :
  (length left ≤ length (merge_left kl kr join left right))%nat.
Proof.
  induction left as [| a rest IH]; simpl; [lia |].
  rewrite length_app.
  destruct (filter (λ b, kr b = kl a) right); simpl; lia.
Qed.

(** With at most one right row per key, a left merge is a map. *)
Lemma merge_left_unique (left : list A) (right : list B) :
  NoDup (map kr right) →
  merge_left kl kr join left right
  = map (λ a, join a (head (filter (λ b, kr b = kl a) right))) left.
Proof.
  intros Hnd. induction left as [| a rest IH]; simpl; [done |].
  rewrite <- IH. clear IH.
  assert (Hone : (length (filter (λ b, kr b = kl a) right) ≤ 1)%nat).
  { clear -Hnd. induction right as [| b l IH]; simpl; [lia |].
    apply NoDup_cons in Hnd as [Hb Hl].
    destruct (decide (kr b = kl a)) as [Heq | Hne].
    - rewrite filter_cons_True by done. simpl.
      assert (filter (λ b0, kr b0 = kl a) l = []) as ->; [| simpl; lia].
      destruct (filter (λ b0, kr b0 = kl a) l) as [| x xs] eqn:Hf; [done |].
      assert (Hx : x ∈ filter (λ b0, kr b0 = kl a) l)
        by (rewrite Hf; left).
      apply list_elem_of_filter in Hx as [Hkx Hxl].
      exfalso. apply Hb. rewrite Heq, <- Hkx.
      by apply list_elem_of_fmap_2.
    - rewrite filter_cons_False by done. by apply IH. }
  destruct (filter (λ b, kr b = kl a) right) as [| b [| b' l]]; simpl in *;
    [done | done | lia].
Qed.

(** Every left row is in the result, with nulls when it has no match
    and with one of its matches otherwise. *)
Lemma merge_left_covers (left : list A) (right : list B) (a : A) :
  a ∈ left →
  ∃ ob : option B,
    join a ob ∈ merge_left kl kr join left right
    ∧ match ob with
      | Some b => b ∈ right ∧ kr b = kl a
      | None => ∀ b, b ∈ right → kr b ≠ kl a
      end.
Proof.
  intros Ha. unfold merge_left.
  destruct (filter (λ b, kr b = kl a) right) as [| b bs] eqn:Hf.
  - exists None. split.
    + apply list_elem_of_In, in_flat_map. exists a.
      split; [by apply list_elem_of_In |]. rewrite Hf. by left.
    + intros b Hb Hk.
      by apply (filter_nil_not_elem_of _ _ b Hf Hk).
  - exists (Some b). split.
    + apply list_elem_of_In, in_flat_map. exists a.
      split; [by apply list_elem_of_In |]. rewrite Hf. by left.
    + assert (Hb : b ∈ filter (λ b, kr b = kl a) right)
        by (rewrite Hf; left).
      apply list_elem_of_filter in Hb as [? ?]. done.
Qed.
End merge_facts.

(** ** The draft-metadata backfill *)

Lemma head_filter_first_fill_row (pid : string) (missing : list DraftFill) :
  head (take 1 (filter (λ m, fill_player_id m = Some pid) missing))
  = first_fill_row pid missing.
Proof.
  induction missing as [| m rest IH]; simpl; [done |].
  destruct (decide (fill_player_id m = Some pid)) as [Heq | Hne].
  - by rewrite filter_cons_True.
  - by rewrite filter_cons_False.
Qed.

Lemma merged_fill_row (missing : list DraftFill) (r : PlayerMeta) :
  head (filter (λ m, fill_player_id m = player_id (meta_stat r))
          (groupby_head1 fill_player_id missing))
  = backfill_of missing r.
Proof.
  unfold backfill_of. destruct (player_id (meta_stat r)) as [pid |].
  - by rewrite groupby_head1_group, head_filter_first_fill_row.
  - by rewrite groupby_head1_null.
Qed.

Lemma add_missing_draft_data_map (src : Sources) (df : list PlayerMeta)
    (missing : list DraftFill) :
  missing_draft_csv src = Some missing →
  add_missing_draft_data src df
  = Some (map (λ r, {| meta_stat := meta_stat r;
                       meta_bio := fill_bio (meta_bio r)
                                     (backfill_of missing r) |}) df).
Proof.
  intros Hread. unfold add_missing_draft_data. rewrite Hread. simpl.
  rewrite merge_left_unique by apply groupby_head1_NoDup.
  rewrite map_map. f_equal. apply map_ext. intros r. simpl.
  by rewrite merged_fill_row.
Qed.

(** C5: when the manual file is read, the backfill returns one row for
    each input row, in order and with the stat columns (the key among
    them) and the names untouched; each of rookie_year, draft_number,
    entry_year and birth_date is the primary value when that is non-null
    and otherwise the value in the first manual row of the player id
    (null when the id is null or has no manual row). *)
Theorem add_missing_draft_data_backfills (src : Sources)
    (df : list PlayerMeta) (missing : list DraftFill) :
  missing_draft_csv src = Some missing →
  ∃ out : list PlayerMeta,
    add_missing_draft_data src df = Some out
    ∧ length out = length df
    ∧ map (λ r, player_id (meta_stat r)) out
      = map (λ r, player_id (meta_stat r)) df
    ∧ Forall2
        (λ r r',
           let fill := backfill_of missing r in
           meta_stat r' = meta_stat r
           ∧ first_name (meta_bio r') = first_name (meta_bio r)
           ∧ last_name (meta_bio r') = last_name (meta_bio r)
           ∧ rookie_year (meta_bio r')
             = first_non_null (rookie_year (meta_bio r)) fill rookie_year_fill
           ∧ draft_number (meta_bio r')
             = first_non_null (draft_number (meta_bio r)) fill
                 draft_number_fill
           ∧ entry_year (meta_bio r')
             = first_non_null (entry_year (meta_bio r)) fill entry_year_fill
           ∧ birth_date (meta_bio r')
             = first_non_null (birth_date (meta_bio r)) fill birth_date_fill)
        df out.
Proof.
  intros Hread. eexists. split; [by apply add_missing_draft_data_map |].
  split; [by rewrite length_map |].
  split; [by rewrite map_map |].
  apply Forall2_fmap_r, Forall_Forall2_diag, Forall_forall.
  intros r _. simpl. done.
Qed.


Lemma add_missing_draft_data_backfills_witness :
  missing_draft_csv sample_sources
  = Some [sample_fill "00-1" 7; sample_fill "00-2" 9; sample_fill "00-1" 8]
  ∧ ∃ out : list PlayerMeta,
      add_missing_draft_data sample_sources sample_meta = Some out
      ∧ length out = length sample_meta.
Proof.
  split; [reflexivity |].
  destruct (add_missing_draft_data_backfills sample_sources sample_meta
              [sample_fill "00-1" 7; sample_fill "00-2" 9;
               sample_fill "00-1" 8] eq_refl)
    as (out & Hout & Hlen & _).
  exists out. by split.
Defined.

(** A null draft_number takes the 7 of the first manual row (not the 8 of
    the later one); a draft_number of 3 is kept over the manual 9. *)
Example backfill_draft_number :
  (map (λ r, draft_number (meta_bio r))
     <$> add_missing_draft_data sample_sources sample_meta)
  = Some [Some 7; Some 3].
Proof. by vm_compute. Qed.

(** ** The two merges *)

Lemma merge_player_meta_map (df : list PlayerStat) (meta : list PlayerInfo) :
  merge_player_meta df meta
  = map (λ r, {| meta_stat := r;
                 meta_bio :=
                   from_option info null_bio
                     (head (filter (λ m, gsis_id m = player_id r)
                              (groupby_head1 gsis_id meta))) |}) df.
Proof.
  unfold merge_player_meta.
  by rewrite merge_left_unique by apply groupby_head1_NoDup.
Qed.

Lemma merge_player_meta_rows (df : list PlayerStat) (meta : list PlayerInfo) :
  map meta_stat (merge_player_meta df meta) = df.
Proof. rewrite merge_player_meta_map, map_map. simpl. apply map_id. Qed.

Lemma merge_player_meta_unmatched (df : list PlayerStat)
    (meta : list PlayerInfo) :
  Forall
    (λ m, player_id (meta_stat m) = None
          ∨ player_id (meta_stat m) ∉ map gsis_id meta →
          meta_bio m = null_bio)
    (merge_player_meta df meta).
Proof.
  rewrite merge_player_meta_map. apply Forall_fmap, Forall_forall.
  intros r _. simpl. intros Hun.
  destruct (player_id r) as [pid |] eqn:Hpid.
  - destruct Hun as [Hun | Hun]; [done |].
    rewrite groupby_head1_group.
    destruct (filter (λ m, gsis_id m = Some pid) meta) as [| m ms] eqn:Hf;
      [done |].
    assert (Hm : m ∈ filter (λ m, gsis_id m = Some pid) meta)
      by (rewrite Hf; left).
    apply list_elem_of_filter in Hm as [Hid Hm].
    exfalso. apply Hun. rewrite <- Hid. by apply list_elem_of_fmap_2.
  - by rewrite groupby_head1_null.
Qed.

Lemma retrieve_player_meta_rows (src : Sources) (df : list PlayerStat)
    (meta : list PlayerMeta) :
  retrieve_player_meta src df = Some meta → map meta_stat meta = df.
Proof.
  unfold retrieve_player_meta.
  destruct (player_info_csv src) as [info_rows |]; [simpl | done].
  destruct (missing_draft_csv src) as [missing |] eqn:Hread.
  - rewrite (add_missing_draft_data_map _ _ missing Hread).
    intros [= <-]. rewrite map_map. simpl.
    apply merge_player_meta_rows.
  - unfold add_missing_draft_data. by rewrite Hread.
Qed.

Section merge_counts.
Context {A B C K : Type} `{EqDecision K}.
Context (kl : A → K) (kr : B → K) (join : A → option B → C).

(** A left merge has one row for each pair of a left row and a right row
    that matches it, and one for each left row without a match. *)
Lemma merge_left_length (left : list A) (right : list B) :
  length (merge_left kl kr join left right)
  = sum_list
      (map (λ a, Nat.max 1 (length (filter (λ b, kr b = kl a) right))) left).
Proof.
  induction left as [| a rest IH]; [done |].
  simpl. rewrite length_app, IH. f_equal.
  destruct (filter (λ b, kr b = kl a) right) as [| b bs]; [done |].
  cbn [length map]. rewrite length_map. lia.
Qed.

Lemma merge_left_pair (left : list A) (right : list B) (a : A) (b : B) :
  a ∈ left → b ∈ right → kr b = kl a →
  join a (Some b) ∈ merge_left kl kr join left right.
Proof.
  intros Ha Hb Hk. unfold merge_left.
  apply list_elem_of_In, in_flat_map. exists a.
  split; [by apply list_elem_of_In |]. apply list_elem_of_In.
  assert (Hin : b ∈ filter (λ b, kr b = kl a) right)
    by (by apply list_elem_of_filter).
  destruct (filter (λ b, kr b = kl a) right) as [| b0 bs] eqn:Hf;
    [by inversion Hin |].
  by apply (list_elem_of_fmap_2 (λ b, join a (Some b))).
Qed.

Lemma merge_left_elem_of_cases (left : list A) (right : list B) (c : C) :
  c ∈ merge_left kl kr join left right →
  ∃ a ob, a ∈ left ∧ c = join a ob
          ∧ match ob with
            | Some b => b ∈ right ∧ kr b = kl a
            | None => ∀ b, b ∈ right → kr b ≠ kl a
            end.
Proof.
  unfold merge_left. intros Hc.
  apply list_elem_of_In, in_flat_map in Hc as (a & Ha & Hc).
  apply list_elem_of_In in Ha, Hc.
  destruct (filter (λ b, kr b = kl a) right) as [| b0 bs] eqn:Hf.
  - apply list_elem_of_singleton in Hc as ->.
    exists a, None. split; [done |]. split; [done |].
    intros b Hb Hk. by apply (filter_nil_not_elem_of _ _ b Hf Hk).
  - apply list_elem_of_fmap in Hc as (b & -> & Hb).
    exists a, (Some b). split; [done |]. split; [done |].
    rewrite <- Hf in Hb. by apply list_elem_of_filter in Hb as [? ?].
Qed.
End merge_counts.

Lemma matches_row_keys (r : PlayerMeta) (g : GameFlat) :
  flat_key g = stat_key r ↔ matches_row r g.
Proof.
  unfold flat_key, stat_key, matches_row. split.
  - by intros [= -> -> ->].
  - by intros (-> & -> & ->).
Qed.

(** C3 (as the code has it): the player-metadata merge returns the stat
    rows one for one, in order, with a null bio for a player the player
    file does not have, and so does the whole metadata stage.  The game
    merge drops no row and gives null game columns to a row that has no
    game; it returns the rows one for one when no two rows of the
    flattened schedule share season, week and team, and in general it has
    one row for each pair of a player row and a schedule row of its
    season, week and team, and one null-padded row for each player row
    without such a schedule row. *)
Theorem merges_keep_stat_rows (src : Sources) (self : gmap string pyval)
    (df : list PlayerStat) (players : list PlayerInfo)
    (meta : list PlayerMeta) (game : list Game) :
  player_info_csv src = Some players →
  retrieve_player_meta src df = Some meta →
  game_data_csv src = Some game →
  let flat := game_flat (normalize_games game) in
  map meta_stat (merge_player_meta df players) = df
  ∧ Forall
      (λ m, player_id (meta_stat m) = None
            ∨ player_id (meta_stat m) ∉ map gsis_id players →
            meta_bio m = null_bio)
      (merge_player_meta df players)
  ∧ map meta_stat meta = df
  ∧ length meta = length df
  ∧ (add_game_data src self (Some meta)).2 = Some (merge_game meta flat)
  ∧ (length df ≤ length (merge_game meta flat))%nat
  ∧ (∀ r, r ∈ meta →
       ∃ g, {| row_meta := r; row_game := g |} ∈ merge_game meta flat
            ∧ (stat_key r ∉ map flat_key flat → g = None))
  ∧ (NoDup (map flat_key flat) →
     map row_meta (merge_game meta flat) = meta
     ∧ length (merge_game meta flat) = length df)
  ∧ length (merge_game meta flat)
    = sum_list
        (map (λ r, Nat.max 1 (length (filter (matches_row r) flat))) meta)
  ∧ (∀ r g, r ∈ meta → g ∈ flat → matches_row r g →
       {| row_meta := r; row_game := Some g |} ∈ merge_game meta flat)
  ∧ Forall
      (λ o, row_meta o ∈ meta
            ∧ match row_game o with
              | Some g => g ∈ flat ∧ matches_row (row_meta o) g
              | None => ∀ g, g ∈ flat → ¬ matches_row (row_meta o) g
              end)
      (merge_game meta flat).
Proof.
  intros Hplayers Hmeta Hgame flat.
  pose proof (retrieve_player_meta_rows _ _ _ Hmeta) as Hrows.
  assert (Hlen : length meta = length df)
    by (by rewrite <- Hrows, length_map).
  split; [apply merge_player_meta_rows |].
  split; [apply merge_player_meta_unmatched |].
  split; [done |]. split; [done |].
  split; [unfold add_game_data; by rewrite Hgame |].
  split.
  { rewrite <- Hlen. apply merge_left_length_ge. }
  split.
  { intros r Hr.
    destruct (merge_left_covers stat_key flat_key
                (λ r g, {| row_meta := r; row_game := g |}) meta flat r Hr)
      as (g & Hin & Hg).
    exists g. split; [done |].
    intros Hun. destruct g as [b |]; [| done].
    destruct Hg as [Hb Hk]. exfalso. apply Hun. rewrite <- Hk.
    by apply list_elem_of_fmap_2. }
  split.
  { intros Hnd. unfold merge_game.
    rewrite merge_left_unique by done.
    rewrite map_map, length_map. simpl. by rewrite map_id. }
  split.
  { unfold merge_game. rewrite merge_left_length. f_equal.
    apply map_ext. intros r. do 2 f_equal.
    apply list_filter_iff. intros g. apply matches_row_keys. }
  split.
  { intros r g Hr Hg Hmatch. unfold merge_game.
    apply (merge_left_pair stat_key flat_key
             (λ r g, {| row_meta := r; row_game := g |})); [done | done |].
    by apply matches_row_keys. }
  apply Forall_forall. intros o Ho. unfold merge_game in Ho.
  apply merge_left_elem_of_cases in Ho as (r & og & Hr & -> & Hog). simpl.
  split; [done |]. destruct og as [g |].
  - destruct Hog as [Hg Hk]. split; [done |]. by apply matches_row_keys.
  - intros g Hg Hmatch. apply (Hog g Hg). by apply matches_row_keys.
Qed.

Lemma merges_keep_stat_rows_witness :
  player_info_csv sample_sources
  = Some [sample_info "00-1" None; sample_info "00-2" (Some 3)]
  ∧ retrieve_player_meta sample_sources sample_df = Some sample_merged
  ∧ game_data_csv sample_sources = Some [sample_game "2020-09-13" "KC" "LV" 1]
  ∧ length sample_merged = length sample_df
  ∧ length (merge_game sample_merged
              (game_flat
                 (normalize_games [sample_game "2020-09-13" "KC" "LV" 1])))
    = length sample_df.
Proof.
  pose proof (merges_keep_stat_rows sample_sources ∅ sample_df
                [sample_info "00-1" None; sample_info "00-2" (Some 3)]
                sample_merged [sample_game "2020-09-13" "KC" "LV" 1]
                eq_refl eq_refl eq_refl)
    as (_ & _ & _ & Hlen & _ & _ & _ & Hunique & _).
  do 3 (split; [reflexivity |]). split; [exact Hlen |].
  apply Hunique. refine (bool_decide_unpack _ _). by vm_compute.
Defined.

(** With the two games at KC in one week, the one KC stat row comes out
    of the game merge twice. *)
Lemma game_merge_duplicates_row :
  ∃ (df : list PlayerStat) (meta : list PlayerMeta) (out : list PlayerRow),
    retrieve_player_stats double_header_sources = Some df
    ∧ retrieve_player_meta double_header_sources df = Some meta
    ∧ (add_game_data double_header_sources ∅ (Some meta)).2 = Some out
    ∧ length df = 1%nat
    ∧ length out = 2%nat.
Proof. do 3 eexists. repeat split; by vm_compute. Qed.

(** ** Sorting *)

Section sorting_facts.
Context {A : Type} (leb : A → A → bool).

Lemma insert_sorted_Permutation (x : A) (l : list A) :
  insert_sorted leb x l ≡ₚ x :: l.
Proof.
  induction l as [| y rest IH]; simpl; [done |].
  destruct (leb x y); [done |].
  rewrite IH. apply Permutation_swap.
Qed.

Lemma sort_stable_Permutation (l : list A) : sort_stable leb l ≡ₚ l.
Proof.
  induction l as [| x rest IH]; simpl; [done |].
  by rewrite insert_sorted_Permutation, IH.
Qed.

Hypothesis leb_total : ∀ a b, leb a b = true ∨ leb b a = true.
Hypothesis leb_trans :
  ∀ a b c, leb a b = true → leb b c = true → leb a c = true.

Let le (a b : A) : Prop := leb a b = true.

Lemma insert_sorted_below (x : A) (l : list A) :
  Forall (le x) l → insert_sorted leb x l = x :: l.
Proof.
  destruct l as [| y rest]; simpl; [done |].
  intros Hall. apply Forall_cons in Hall as [Hy _].
  unfold le in Hy. by rewrite Hy.
Qed.

Lemma insert_sorted_StronglySorted (x : A) (l : list A) :
  StronglySorted le l → StronglySorted le (insert_sorted leb x l).
Proof.
  induction 1 as [| y rest Hrest IH Hy]; simpl.
  { repeat constructor. }
  destruct (leb x y) eqn:Hxy.
  - constructor; [by constructor |].
    constructor; [done |].
    eapply Forall_impl; [exact Hy |]. intros z Hz. by eapply leb_trans.
  - constructor; [done |].
    rewrite insert_sorted_Permutation. constructor; [| done].
    destruct (leb_total x y) as [Hc | Hc]; [congruence | done].
Qed.

Lemma sort_stable_StronglySorted (l : list A) :
  StronglySorted le (sort_stable leb l).
Proof.
  induction l as [| x rest IH]; simpl; [constructor |].
  by apply insert_sorted_StronglySorted.
Qed.

(** Taking the rows of a group commutes with the stable sort. *)
Lemma filter_insert_sorted (P : A → Prop) `{∀ x, Decision (P x)}
    (x : A) (l : list A) :
  StronglySorted le l →
  filter P (insert_sorted leb x l)
  = if decide (P x) then insert_sorted leb x (filter P l) else filter P l.
Proof.
  induction 1 as [| y rest Hrest IH Hy]; simpl.
  { rewrite filter_cons, filter_nil. by destruct (decide (P x)). }
  destruct (leb x y) eqn:Hxy.
  - rewrite (filter_cons _ x). destruct (decide (P x)) as [HPx | HPx];
      [| done].
    symmetry. apply insert_sorted_below.
    apply Forall_forall. intros z Hz.
    apply list_elem_of_filter in Hz as [_ Hz].
    apply elem_of_cons in Hz as [-> | Hz]; [done |].
    rewrite Forall_forall in Hy. eapply leb_trans; [exact Hxy |].
    by apply Hy.
  - rewrite !(filter_cons _ y), IH.
    destruct (decide (P x)), (decide (P y)); simpl; try done.
    by rewrite Hxy.
Qed.

Lemma filter_sort_stable (P : A → Prop) `{∀ x, Decision (P x)}
    (l : list A) :
  filter P (sort_stable leb l) = sort_stable leb (filter P l).
Proof.
  induction l as [| x rest IH]; simpl; [done |].
  rewrite filter_insert_sorted by apply sort_stable_StronglySorted.
  rewrite filter_cons, IH. by destruct (decide (P x)).
Qed.

(** The first row of the sorted frame: the rows before it in the input
    are strictly after it in the order, the rows after it are not
    before it. *)
Lemma sort_stable_head (l : list A) (r : A) (rest : list A) :
  sort_stable leb l = r :: rest →
  ∃ before after,
    l = before ++ r :: after
    ∧ Forall (λ x, leb x r = false) before
    ∧ Forall (λ x, leb r x = true) after.
Proof.
  revert r rest. induction l as [| x l IH]; intros r rest; simpl; [done |].
  destruct (sort_stable leb l) as [| y rest'] eqn:Hsort; simpl.
  - intros [= <- <-].
    assert (l = []) as ->.
    { apply Permutation_nil_r. by rewrite <- (sort_stable_Permutation l), Hsort. }
    exists [], []. by repeat constructor.
  - destruct (IH y rest' eq_refl) as (before & after & -> & Hb & Ha).
    destruct (leb x y) eqn:Hxy.
    + intros [= <- <-]. exists [], (before ++ y :: after).
      split; [done |]. split; [constructor |].
      apply Forall_app. split; [| constructor].
      * eapply Forall_impl; [exact Hb |]. intros z Hz. simpl in Hz.
        destruct (leb_total y z) as [Hc | Hc]; [| congruence].
        by eapply leb_trans.
      * done.
      * eapply Forall_impl; [exact Ha |]. intros z Hz. simpl in Hz.
        by eapply leb_trans.
    + intros [= <- <-]. exists (x :: before), after.
      split; [done |]. split; [by constructor | done].
Qed.
End sorting_facts.

(** ** Team aggregation *)

Lemma int64_range (z : Z) : int64_cell (int64 z).
Proof.
  unfold int64, int64_cell.
  pose proof (Z.mod_pos_bound (z + 2 ^ 63) (2 ^ 64)). lia.
Qed.

Lemma int64_small (z : Z) : int64_cell z → int64 z = z.
Proof.
  unfold int64, int64_cell. intros Hz. rewrite Z.mod_small; lia.
Qed.

Lemma int64_add_int64 (a b : Z) : int64 (a + int64 b) = int64 (a + b).
Proof.
  unfold int64. f_equal.
  replace (a + ((b + 2 ^ 63) `mod` 2 ^ 64 - 2 ^ 63) + 2 ^ 63)
    with (a + (b + 2 ^ 63) `mod` 2 ^ 64) by lia.
  rewrite Zplus_mod_idemp_r. f_equal. lia.
Qed.

Lemma stat_add_stats (c : stat_col) (a b : Stats) :
  stat c (add_stats a b) = int64 (stat c a + stat c b).
Proof. by destruct c. Qed.

(** A summed stat is the exact sum, wrapped into the int64 range. *)
Lemma stat_sum_stats (c : stat_col) (rows : list PlayerRow) :
  stat c (sum_stats rows) = int64 (column_sum c rows).
Proof.
  unfold column_sum.
  induction rows as [| r rest IH]; [by destruct c |].
  simpl. rewrite stat_add_stats.
  change (foldr (λ r acc, add_stats (stats (row_stat r)) acc) zero_stats rest)
    with (sum_stats rest).
  by rewrite IH, int64_add_int64.
Qed.

Lemma team_row_key_team_row (k : team_key) (s : Stats) :
  team_row_key (team_row k s) = k.
Proof. by destruct k as [[[[gid sn] wk] day] t]. Qed.

Lemma team_stats_team_row (k : team_key) (s : Stats) :
  team_stats (team_row k s) = s.
Proof. by destruct k as [[[[gid sn] wk] day] t]. Qed.

Lemma aggregate_team_stats_keys (df : list PlayerRow) (tf : team_field) :
  map team_row_key (aggregate_team_stats df tf)
  = sort_stable team_key_leb (group_keys (team_group_key tf) df).
Proof.
  unfold aggregate_team_stats. rewrite map_map.
  erewrite map_ext; [apply map_id |].
  intros k. apply team_row_key_team_row.
Qed.

Lemma elem_of_group_keys {A K : Type} `{EqDecision K}
    (key : A → option K) (df : list A) (k : K) :
  k ∈ group_keys key df ↔ ∃ r, r ∈ df ∧ key r = Some k.
Proof.
  unfold group_keys. rewrite elem_of_remove_dups, list_elem_of_omap.
  done.
Qed.

(** The key under which the code groups a row is the key of the group the
    row is in. *)
Lemma team_group_key_Some (tf : team_field) (r : PlayerRow) (k : team_key) :
  team_group_key tf r = Some k ↔ in_team_group tf k r.
Proof.
  destruct k as [[[[gid sn] wk] day] t].
  unfold team_group_key, in_team_group, team_field_cell.
  destruct (row_game_id r) as [gid' |]; simpl;
    [| split; [done | by intros [? _]]].
  destruct (row_gameday r) as [day' |]; simpl;
    [| split; [done | by intros (_ & _ & _ & ? & _)]].
  destruct tf; simpl.
  - split.
    + by intros [= -> -> -> -> ->].
    + by intros ([= ->] & -> & -> & [= ->] & ->).
  - destruct (row_opponent r) as [opp |]; simpl.
    + split.
      * by intros [= -> -> -> -> ->].
      * by intros ([= ->] & -> & -> & [= ->] & [= ->]).
    + split; [done | by intros (_ & _ & _ & _ & ?)].
Qed.

Lemma group_rows_in_team_group (tf : team_field) (k : team_key)
    (df : list PlayerRow) :
  group_rows (team_group_key tf) k df = filter (in_team_group tf k) df.
Proof.
  unfold group_rows. apply list_filter_iff. intros r.
  apply team_group_key_Some.
Qed.

(** C8 (as the code has it): the team table has one row for each
    combination of game_id, season, week, gameday and team field that
    some player row has with a game_id and a gameday that are not null,
    and no other row; in that row the team field is under the name team
    and each of the nine stats is the int64 sum of the stat over the
    player rows of the combination: the sum wrapped into the int64 range,
    which is the sum itself whenever that is in the range.  Two player
    rows of one game and team with 10 and 20 attempts give one team row
    with 30 attempts. *)
Theorem aggregate_team_stats_sums (df : list PlayerRow) (tf : team_field) :
  NoDup (map team_row_key (aggregate_team_stats df tf))
  ∧ (∀ k : team_key,
       k ∈ map team_row_key (aggregate_team_stats df tf)
       ↔ ∃ r, r ∈ df ∧ in_team_group tf k r)
  ∧ Forall
      (λ t, ∀ c : stat_col,
          let total :=
            column_sum c (filter (in_team_group tf (team_row_key t)) df) in
          stat c (team_stats t) = int64 total
          ∧ (int64_cell total → stat c (team_stats t) = total))
      (aggregate_team_stats df tf)
  ∧ map (λ t, (team_game_id t, team_team t, attempts (team_stats t)))
      (aggregate_team_stats two_passers TeamField)
    = [("2020_01_OAK_KC", "OAK", 30)].
Proof.
  split; [| split; [| split; [| by vm_compute]]].
  - rewrite aggregate_team_stats_keys, sort_stable_Permutation.
    apply NoDup_remove_dups.
  - intros k. rewrite aggregate_team_stats_keys, sort_stable_Permutation.
    rewrite elem_of_group_keys.
    split; intros (r & Hr & Hk); exists r; split; try done;
      by apply team_group_key_Some.
  - apply Forall_forall. intros t Ht c total.
    assert (Hstat : stat c (team_stats t) = int64 total).
    { subst total. unfold aggregate_team_stats in Ht.
      apply list_elem_of_fmap in Ht as (k & -> & _).
      rewrite team_stats_team_row, team_row_key_team_row, stat_sum_stats.
      by rewrite group_rows_in_team_group. }
    split; [done |]. intros Hcell. by rewrite Hstat, int64_small.
Qed.

(** Two player rows of one game and team with 10 and 20 attempts give
    one team row with 30 attempts. *)
Example aggregate_two_passers :
  map (λ t, (team_game_id t, team_team t, attempts (team_stats t)))
    (aggregate_team_stats two_passers TeamField)
  = [("2020_01_OAK_KC", "OAK", 30)].
Proof. by vm_compute. Qed.

(** Two rows of one game and team whose attempts add up to [2^63] give a
    team row with [-2^63] attempts; and a row with a game_id whose gameday
    is null gives no team row. *)
Lemma team_sum_wraps_around :
  map (λ t, attempts (team_stats t))
    (aggregate_team_stats overflow_passers TeamField)
  = [- 2 ^ 63]
  ∧ column_sum Attempts overflow_passers = 2 ^ 63
  ∧ row_game_id no_gameday_passer = Some "2020_01_OAK_KC"
  ∧ aggregate_team_stats [no_gameday_passer] TeamField = [].
Proof. by vm_compute. Qed.

(** ** The order of [iso_top_passer] *)

Lemma string_compare_refl (s : string) : String.compare s s = Eq.
Proof.
  pose proof (String.compare_antisym s s) as H.
  by destruct (String.compare s s).
Qed.

Lemma string_compare_lt_trans (a b c : string) :
  String.compare a b = Lt → String.compare b c = Lt → String.compare a c = Lt.
Proof.
  intros Hab Hbc.
  pose proof String_as_OT.lt_strorder as [_ Htrans].
  exact (Htrans a b c Hab Hbc).
Qed.

Lemma compare_na_last_eq (x y : option string) :
  compare_na_last x y = Eq → x = y.
Proof.
  destruct x as [a |], y as [b |]; simpl; try done.
  intros H. f_equal. by apply String.compare_eq_iff.
Qed.

Lemma compare_na_last_refl (x : option string) : compare_na_last x x = Eq.
Proof. destruct x; simpl; [apply string_compare_refl | done]. Qed.

Lemma compare_na_last_antisym (x y : option string) :
  compare_na_last y x = CompOpp (compare_na_last x y).
Proof.
  destruct x as [a |], y as [b |]; simpl; try done.
  apply String.compare_antisym.
Qed.

Lemma compare_na_last_lt_trans (x y z : option string) :
  compare_na_last x y = Lt → compare_na_last y z = Lt →
  compare_na_last x z = Lt.
Proof.
  destruct x as [a |], y as [b |], z as [c |]; simpl; try done.
  apply string_compare_lt_trans.
Qed.

Lemma top_passer_leb_total (a b : PlayerRow) :
  top_passer_leb a b = true ∨ top_passer_leb b a = true.
Proof.
  unfold top_passer_leb, top_passer_compare.
  rewrite (compare_na_last_antisym (row_game_id a) (row_game_id b)).
  destruct (compare_na_last (row_game_id a) (row_game_id b)); simpl; auto.
  rewrite (Z.compare_antisym (attempts (stats (row_stat b)))).
  destruct (attempts (stats (row_stat b)) ?= attempts (stats (row_stat a)));
    simpl; auto.
Qed.

Lemma top_passer_leb_trans (a b c : PlayerRow) :
  top_passer_leb a b = true → top_passer_leb b c = true →
  top_passer_leb a c = true.
Proof.
  unfold top_passer_leb, top_passer_compare.
  destruct (compare_na_last (row_game_id a) (row_game_id b)) eqn:Hab;
    simpl; [| | done];
    (destruct (compare_na_last (row_game_id b) (row_game_id c)) eqn:Hbc;
     simpl; [| | done]).
  - apply compare_na_last_eq in Hab, Hbc. rewrite Hab, Hbc.
    rewrite compare_na_last_refl. simpl.
    pose proof (Z.compare_spec (attempts (stats (row_stat b)))
                  (attempts (stats (row_stat a)))) as H1.
    pose proof (Z.compare_spec (attempts (stats (row_stat c)))
                  (attempts (stats (row_stat b)))) as H2.
    pose proof (Z.compare_spec (attempts (stats (row_stat c)))
                  (attempts (stats (row_stat a)))) as H3.
    destruct H1; [| | done]; (destruct H2; [| | done]);
      intros _ _; destruct H3; simpl; try done; lia.
  - apply compare_na_last_eq in Hab. rewrite Hab, Hbc. done.
  - apply compare_na_last_eq in Hbc. rewrite <- Hbc, Hab. done.
  - rewrite (compare_na_last_lt_trans _ _ _ Hab Hbc). done.
Qed.

Lemma passer_group_key_Some (r : PlayerRow) (g t : string) :
  passer_group_key r = Some (g, t)
  ↔ row_game_id r = Some g ∧ team (row_stat r) = t.
Proof.
  unfold passer_group_key. destruct (row_game_id r) as [gid |]; simpl.
  - split; [by intros [= -> ->] | by intros [[= ->] ->]].
  - split; [done | by intros [? _]].
Qed.

(** Within the rows of one game, the order is by attempts, descending. *)
Lemma top_passer_leb_same_game (a b : PlayerRow) (g : string) :
  row_game_id a = Some g → row_game_id b = Some g →
  top_passer_leb a b
  = bool_decide (attempts (stats (row_stat b))
                 ≤ attempts (stats (row_stat a))).
Proof.
  intros Ha Hb. unfold top_passer_leb, top_passer_compare.
  rewrite Ha, Hb. simpl. rewrite string_compare_refl. simpl.
  destruct (Z.compare_spec (attempts (stats (row_stat b)))
              (attempts (stats (row_stat a)))) as [Hc | Hc | Hc];
    simpl; symmetry.
  - apply bool_decide_eq_true. lia.
  - apply bool_decide_eq_true. lia.
  - apply bool_decide_eq_false. lia.
Qed.

(** The rows that [iso_top_passer] keeps of one group: the first row of
    the stably sorted group. *)
Lemma iso_top_passer_group (df : list PlayerRow) (k : string * string) :
  group_rows passer_group_key k (iso_top_passer df)
  = take 1 (sort_stable top_passer_leb (group_rows passer_group_key k df)).
Proof.
  unfold group_rows, iso_top_passer.
  rewrite groupby_head1_group.
  by rewrite (filter_sort_stable top_passer_leb top_passer_leb_total
                top_passer_leb_trans).
Qed.

(** ** Top-passer isolation *)

Lemma groupby_head1_is_Some {A K : Type} `{EqDecision K}
    (key : A → option K) (df : list A) :
  Forall (λ r, is_Some (key r)) (groupby_head1 key df).
Proof.
  apply Forall_forall. intros r Hr.
  destruct (key r) as [k |] eqn:Hk; [by exists k |].
  exfalso.
  by apply (filter_nil_not_elem_of (λ r, key r = None) _ r
              (groupby_head1_null key df _ (λ _ H, H)) Hk).
Qed.

Lemma filter_passer_group (g t : string) (df : list PlayerRow) :
  filter (λ r, row_game_id r = Some g ∧ team (row_stat r) = t) df
  = group_rows passer_group_key (g, t) df.
Proof.
  unfold group_rows. apply list_filter_iff. intros r.
  symmetry. apply passer_group_key_Some.
Qed.

(** C4: the rows kept by the top-passer isolation are rows of the input
    with a game_id that is not null, no two of them with the same game_id
    and team; for each game_id and team, when the input has rows with
    them, exactly one of these rows is kept, and every row of that
    game_id and team before it in the input has strictly fewer attempts
    and every one after it has no more. *)
Theorem iso_top_passer_first_max (df : list PlayerRow) :
  NoDup (map (λ r, (row_game_id r, team (row_stat r))) (iso_top_passer df))
  ∧ Forall (λ r, r ∈ df ∧ is_Some (row_game_id r)) (iso_top_passer df)
  ∧ ∀ g t : string,
      let in_group :=
        λ r, row_game_id r = Some g ∧ team (row_stat r) = t in
      let grp := filter in_group df in
      let kept := filter in_group (iso_top_passer df) in
      (grp = [] ∧ kept = [])
      ∨ ∃ before top after,
          grp = before ++ top :: after
          ∧ kept = [top]
          ∧ Forall (λ x, attempts (stats (row_stat x))
                         < attempts (stats (row_stat top))) before
          ∧ Forall (λ x, attempts (stats (row_stat x))
                         ≤ attempts (stats (row_stat top))) after.
Proof.
  split.
  { apply (NoDup_fmap_1
             (λ k : option string * string, g ← k.1; Some (g, k.2))).
    rewrite <- list_fmap_compose. apply groupby_head1_NoDup. }
  split.
  - apply Forall_forall. intros r Hr. split.
    + apply groupby_head1_subset in Hr.
      by rewrite sort_stable_Permutation in Hr.
    + pose proof (groupby_head1_is_Some passer_group_key
                    (sort_stable top_passer_leb df)) as Hall.
      rewrite Forall_forall in Hall. destruct (Hall r Hr) as [[g t] Hk].
      apply passer_group_key_Some in Hk as [Hg _]. by exists g.
  - intros g t in_group grp kept. subst in_group grp kept.
    rewrite !filter_passer_group, iso_top_passer_group.
    set (grp := group_rows passer_group_key (g, t) df).
    destruct (sort_stable top_passer_leb grp) as [| top rest] eqn:Hsort.
    + left. split; [| done].
      apply Permutation_nil_r.
      by rewrite <- (sort_stable_Permutation top_passer_leb grp), Hsort.
    + right.
      destruct (sort_stable_head top_passer_leb top_passer_leb_total
                  top_passer_leb_trans grp top rest Hsort)
        as (before & after & Hgrp & Hb & Ha).
      exists before, top, after. split; [done |]. split; [done |].
      assert (Hin : ∀ x, x ∈ grp → row_game_id x = Some g).
      { intros x Hx. apply list_elem_of_filter in Hx as [Hx _].
        by apply passer_group_key_Some in Hx as [? _]. }
      assert (Htop : row_game_id top = Some g).
      { apply Hin. rewrite Hgrp. set_solver. }
      split; apply Forall_forall; intros x Hx.
      * rewrite Forall_forall in Hb. specialize (Hb x Hx). simpl in Hb.
        rewrite (top_passer_leb_same_game x top g) in Hb;
          [| apply Hin; rewrite Hgrp; set_solver | done].
        apply bool_decide_eq_false in Hb. lia.
      * rewrite Forall_forall in Ha. specialize (Ha x Hx). simpl in Ha.
        rewrite (top_passer_leb_same_game top x g) in Ha;
          [| done | apply Hin; rewrite Hgrp; set_solver].
        by apply bool_decide_eq_true in Ha.
Qed.

(** Two OAK passers tied on 30 attempts: the one met first is kept. *)
Example iso_top_passer_tie :
  map (λ r, (player_id (row_stat r), attempts (stats (row_stat r))))
    (iso_top_passer sample_rows)
  = [(Some "00-1", 30); (Some "00-3", 25)].
Proof. by vm_compute. Qed.

(** ** Rows without a game *)

Section null_keys.
Context {A K : Type} `{EqDecision K}.
Context (key : A → option K) (P : A → Prop) `{∀ r, Decision (P r)}.
Hypothesis null_outside : ∀ r, ¬ P r → key r = None.

Lemma omap_filter_null (df : list A) :
  omap key (filter P df) = omap key df.
Proof.
  induction df as [| r rest IH]; [done |].
  rewrite filter_cons. destruct (decide (P r)) as [HP | HP]; csimpl.
  - by rewrite IH.
  - by rewrite (null_outside r HP), IH.
Qed.

Lemma group_rows_filter_null (k : K) (df : list A) :
  group_rows key k (filter P df) = group_rows key k df.
Proof.
  unfold group_rows. induction df as [| r rest IH]; [done |].
  rewrite (filter_cons P). destruct (decide (P r)) as [HP | HP].
  - rewrite !(filter_cons _ r), IH. done.
  - rewrite IH. rewrite (filter_cons_False _ r); [done |].
    rewrite (null_outside r HP). done.
Qed.

Lemma groupby_head1_filter_null (df : list A) :
  groupby_head1 key (filter P df) = groupby_head1 key df.
Proof.
  unfold groupby_head1. generalize (@nil K) as seen.
  induction df as [| r rest IH]; intros seen; [done |].
  rewrite filter_cons. destruct (decide (P r)) as [HP | HP]; simpl.
  - destruct (key r) as [k |]; [| apply IH].
    destruct (decide (k ∈ seen)); [apply IH |]. by rewrite IH.
  - by rewrite (null_outside r HP), IH.
Qed.
End null_keys.

Lemma team_group_key_no_game (tf : team_field) (r : PlayerRow) :
  ¬ has_game r → team_group_key tf r = None.
Proof.
  unfold has_game, team_group_key, row_game_id. intros Hno.
  destruct (row_game r); [| done]. exfalso. apply Hno. by eexists.
Qed.

Lemma passer_group_key_no_game (r : PlayerRow) :
  ¬ has_game r → passer_group_key r = None.
Proof.
  unfold has_game, passer_group_key, row_game_id. intros Hno.
  destruct (row_game r); [| done]. exfalso. apply Hno. by eexists.
Qed.

Lemma aggregate_team_stats_has_game (df : list PlayerRow) (tf : team_field) :
  aggregate_team_stats (filter has_game df) tf = aggregate_team_stats df tf.
Proof.
  unfold aggregate_team_stats, group_keys.
  rewrite (omap_filter_null _ _ (team_group_key_no_game tf)).
  apply map_ext. intros k.
  by rewrite (group_rows_filter_null _ _ (team_group_key_no_game tf)).
Qed.

Lemma iso_top_passer_has_game (df : list PlayerRow) :
  iso_top_passer (filter has_game df) = iso_top_passer df.
Proof.
  unfold iso_top_passer.
  rewrite <- (filter_sort_stable top_passer_leb top_passer_leb_total
                top_passer_leb_trans).
  apply (groupby_head1_filter_null _ _ passer_group_key_no_game).
Qed.

(** C9: a player row for which the schedule has no game of its season,
    week and team comes out of the game merge with null game columns; a
    row with null game columns is in no group of the team aggregation and
    in no group of the top-passer isolation, so both results, and the
    team and model tables made from them, are those of the frame without
    such rows, and every row kept as top passer has a game. *)
Theorem rows_without_game_left_out (meta : list PlayerMeta)
    (flat : list GameFlat) (df : list PlayerRow) (tf : team_field) :
  (∀ r, r ∈ meta → stat_key r ∉ map flat_key flat →
        {| row_meta := r; row_game := None |} ∈ merge_game meta flat)
  ∧ (∀ r, row_game r = None →
          row_game_id r = None ∧ row_gameday r = None
          ∧ team_group_key tf r = None ∧ passer_group_key r = None)
  ∧ aggregate_team_stats df tf = aggregate_team_stats (filter has_game df) tf
  ∧ iso_top_passer df = iso_top_passer (filter has_game df)
  ∧ team_table df = team_table (filter has_game df)
  ∧ model_table df = model_table (filter has_game df)
  ∧ Forall has_game (iso_top_passer df)
  ∧ Forall
      (λ t, ∃ r, r ∈ df ∧ has_game r
                 ∧ team_group_key tf r = Some (team_row_key t))
      (aggregate_team_stats df tf).
Proof.
  split.
  { intros r Hr Hun.
    destruct (merge_left_covers stat_key flat_key
                (λ r g, {| row_meta := r; row_game := g |}) meta flat r Hr)
      as ([b |] & Hin & Hg); [| done].
    destruct Hg as [Hb Hk]. exfalso. apply Hun. rewrite <- Hk.
    by apply list_elem_of_fmap_2. }
  split.
  { intros r Hr.
    unfold team_group_key, passer_group_key, row_game_id, row_gameday.
    by rewrite Hr. }
  split; [by rewrite aggregate_team_stats_has_game |].
  split; [by rewrite iso_top_passer_has_game |].
  split; [unfold team_table; by rewrite aggregate_team_stats_has_game |].
  split.
  { unfold model_table, team_table.
    by rewrite aggregate_team_stats_has_game, iso_top_passer_has_game. }
  split.
  - apply Forall_forall. intros r Hr.
    destruct (decide (has_game r)) as [Hg | Hg]; [done |].
    apply passer_group_key_no_game in Hg.
    pose proof (groupby_head1_is_Some passer_group_key
                  (sort_stable top_passer_leb df)) as Hall.
    rewrite Forall_forall in Hall. apply Hall in Hr as [k Hk]. congruence.
  - apply Forall_forall. intros t Ht.
    assert (Hk : team_row_key t
                 ∈ map team_row_key (aggregate_team_stats df tf))
      by (by apply list_elem_of_fmap_2).
    rewrite aggregate_team_stats_keys, sort_stable_Permutation in Hk.
    apply elem_of_group_keys in Hk as (r & Hr & Hkey).
    exists r. split; [done |]. split; [| done].
    destruct (decide (has_game r)) as [Hg | Hg]; [done |].
    apply (team_group_key_no_game tf) in Hg. congruence.
Qed.

(** The DEN passer of the sample has no game: he is in the merged frame
    and in neither table. *)
Example sample_row_without_game :
  map (λ r, (player_id (row_stat r), row_game_id r)) sample_rows
  = [(Some "00-1", Some "2020_01_OAK_KC"); (Some "00-2", Some "2020_01_OAK_KC");
     (Some "00-3", Some "2020_01_OAK_KC"); (Some "00-4", None)]
  ∧ map tm_team (team_table sample_rows) = ["KC"; "OAK"]
  ∧ map (λ m, pi_player_id (model_info m)) (model_table sample_rows)
    = [Some "00-1"; Some "00-3"].
Proof. by vm_compute. Qed.

(** ** The value columns *)

Lemma merge_left_elem_of {A B C K : Type} `{EqDecision K}
    (kl : A → K) (kr : B → K) (join : A → option B → C)
    (left : list A) (right : list B) (c : C) :
  c ∈ merge_left kl kr join left right →
  ∃ a ob, a ∈ left ∧ c = join a ob
          ∧ ∀ b, ob = Some b → b ∈ right ∧ kr b = kl a.
Proof.
  unfold merge_left. intros Hc.
  apply list_elem_of_In, in_flat_map in Hc as (a & Ha & Hc).
  apply list_elem_of_In in Ha, Hc.
  destruct (filter (λ b, kr b = kl a) right) as [| b0 bs] eqn:Hf.
  - apply list_elem_of_singleton in Hc as ->.
    exists a, None. by repeat split.
  - apply list_elem_of_fmap in Hc as (b & -> & Hb).
    exists a, (Some b). split; [done |]. split; [done |].
    intros b' [= <-]. rewrite <- Hf in Hb.
    by apply list_elem_of_filter in Hb as [? ?].
Qed.

Lemma cumcount_from_length {A K : Type} `{EqDecision K}
    (key : A → option K) (earlier : list K) (df : list A) :
  length (cumcount_from key earlier df) = length df.
Proof.
  revert earlier. induction df as [| r rest IH]; intros earlier; [done |].
  simpl. destruct (key r); simpl; by rewrite IH.
Qed.

Lemma format_top_passer_stats (df : list PlayerRow) :
  map tp_stats (format_top_passer df) = map (λ r, stats (row_stat r)) df.
Proof.
  unfold format_top_passer, cumcount.
  pose proof (cumcount_from_length (λ r, player_id (row_stat r)) [] df)
    as Hlen.
  revert Hlen.
  generalize (cumcount_from (λ r, player_id (row_stat r)) [] df) as counts.
  induction df as [| r rest IH]; intros [| n counts] Hlen; try done.
  simpl. f_equal. apply IH. by injection Hlen.
Qed.

Lemma format_top_passer_elem_of (df : list PlayerRow) (p : TopPasser) :
  p ∈ format_top_passer df →
  ∃ r, r ∈ df ∧ tp_stats p = stats (row_stat r)
       ∧ pi_game_id (tp_info p) = row_game_id r
       ∧ pi_team (tp_info p) = team (row_stat r)
       ∧ pi_player_id (tp_info p) = player_id (row_stat r).
Proof.
  unfold format_top_passer.
  generalize (cumcount (λ r, player_id (row_stat r)) df) as counts.
  induction df as [| r rest IH]; intros [| n counts] Hp; simpl in Hp;
    try by inversion Hp.
  apply elem_of_cons in Hp as [-> | Hp].
  - exists r. split; [left | done].
  - destruct (IH counts Hp) as (r' & Hr' & Hrest).
    exists r'. split; [by right | done].
Qed.

Lemma SFopp_binary_round (m : positive) (e : Z) :
  SFopp (binary_round prec emax false m e) = binary_round prec emax true m e.
Proof.
  unfold binary_round. destruct (shl_align _ _ _) as [mz ez].
  unfold binary_round_aux.
  destruct (shr_fexp _ _ _ _ _) as [mrs e'].
  destruct (shr_fexp _ _ _ _ _) as [mrs' e''].
  destruct (shr_m mrs'); simpl; try done.
  by destruct (e'' <=? emax - prec).
Qed.

(** The conversion of an int64 cell rounds it to the nearest binary64
    number. *)
Lemma to_float_spec (z : Z) : int64_cell z → Prim2SF (to_float z) = SFint z.
Proof.
  intros [Hlo Hhi]. destruct z as [| p | p]; unfold to_float.
  - reflexivity.
  - rewrite of_uint63_spec, Uint63.of_Z_spec.
    rewrite Z.mod_small; [done |]. change wB with (2 ^ 63). lia.
  - destruct (Z.eqb_spec (Zpos p) (2 ^ 63)) as [Heq | Hne].
    + injection Heq as ->. by vm_compute.
    + rewrite FloatAxioms.opp_spec, of_uint63_spec, Uint63.of_Z_spec.
      rewrite Z.mod_small by (change wB with (2 ^ 63); lia).
      apply SFopp_binary_round.
Qed.

(** The float literals of the source are the correctly rounded decimals
    of the formula. *)
Lemma coefficients_rounded :
  Prim2SF (-2.2) = SFdec (-22) ∧ Prim2SF 3.7 = SFdec 37
  ∧ Prim2SF 5 = SFint 5 ∧ Prim2SF 11.3 = SFdec 113
  ∧ Prim2SF 14.1 = SFdec 141 ∧ Prim2SF 1.1 = SFdec 11
  ∧ Prim2SF 0.6 = SFdec 6 ∧ Prim2SF 15.9 = SFdec 159.
Proof. repeat split; by vm_compute. Qed.

(** C7 (as the code has it): the value of a row of int64 cells is the
    formula evaluated in binary64: each coefficient the binary64 number
    nearest to its decimal, each cell converted to binary64, [8 * sacks]
    an int64 product, and every product, quotient, sum and difference the
    correctly rounded operation, in the order of the expression.  The
    team table and the player rows get their value from this one
    function, on the summed stats of the team row and on the stats of the
    kept passer, and a model row carries the value of its passer and,
    when it has one, the value of the team row of its game and team.  On
    the row of the specification's example the value is the binary64
    number nearest to 45.2. *)
Theorem calculate_raw_value_formula :
  (∀ s : Stats,
      int64_stats s → Prim2SF (calculate_raw_value s) = value_binary64 s)
  ∧ (∀ df : list PlayerRow,
       map tm_team_VALUE (team_table df)
       = map (λ t, calculate_raw_value (team_stats t))
           (aggregate_team_stats df TeamField))
  ∧ (∀ df : list PlayerRow,
       map snd (player_value_table (format_top_passer (iso_top_passer df)))
       = map (λ r, calculate_raw_value (stats (row_stat r)))
           (iso_top_passer df))
  ∧ (∀ df : list PlayerRow,
       Forall
         (λ m, (∃ r, r ∈ iso_top_passer df
                     ∧ pi_game_id (model_info m) = row_game_id r
                     ∧ pi_team (model_info m) = team (row_stat r)
                     ∧ player_VALUE m
                       = calculate_raw_value (stats (row_stat r)))
               ∧ ∀ v, team_VALUE m = Some v →
                   ∃ t, t ∈ aggregate_team_stats df TeamField
                        ∧ pi_game_id (model_info m) = Some (team_game_id t)
                        ∧ pi_team (model_info m) = team_team t
                        ∧ v = calculate_raw_value (team_stats t))
         (model_table df))
  ∧ calculate_raw_value
      {| completions := 20; attempts := 30; passing_yards := 250;
         passing_tds := 2; interceptions := 1; sacks := 3; carries := 3;
         rushing_yards := 10; rushing_tds := 0 |} = 45.2%float
  ∧ Prim2SF 45.2 = SFdec 452.
Proof.
  split.
  { intros s Hs. unfold calculate_raw_value, value_binary64.
    destruct coefficients_rounded as (C1 & C2 & C3 & C4 & C5 & C6 & C7 & C8).
    repeat (rewrite FloatAxioms.add_spec || rewrite FloatAxioms.sub_spec
            || rewrite FloatAxioms.mul_spec || rewrite FloatAxioms.div_spec).
    rewrite (to_float_spec (attempts s) (Hs Attempts)),
      (to_float_spec (completions s) (Hs Completions)),
      (to_float_spec (passing_yards s) (Hs PassingYards)),
      (to_float_spec (passing_tds s) (Hs PassingTds)),
      (to_float_spec (interceptions s) (Hs Interceptions)),
      (to_float_spec (carries s) (Hs Carries)),
      (to_float_spec (rushing_yards s) (Hs RushingYards)),
      (to_float_spec (rushing_tds s) (Hs RushingTds)),
      (to_float_spec _ (int64_range (8 * sacks s))).
    by rewrite C1, C2, C3, C4, C5, C6, C7, C8. }
  split; [intros df; unfold team_table, team_value_table; by rewrite map_map |].
  split.
  { intros df. unfold player_value_table. rewrite map_map. simpl.
    rewrite <- (map_map tp_stats calculate_raw_value).
    by rewrite format_top_passer_stats, map_map. }
  split; [| split; by vm_compute].
  intros df. apply Forall_forall. intros m Hm.
  unfold model_table, merge_team_value in Hm.
  apply merge_left_elem_of in Hm as (pv & ot & Hpv & -> & Hot). simpl.
  unfold player_value_table in Hpv.
  apply list_elem_of_fmap in Hpv as (p & -> & Hp). simpl in *.
  apply format_top_passer_elem_of in Hp as (r & Hr & Hst & Hgid & Htm & _).
  split.
  - exists r. by rewrite Hst.
  - intros v Hv. destruct ot as [tm |]; [| done]. simpl in Hv.
    injection Hv as <-.
    destruct (Hot tm eq_refl) as [Htm_in Hkey].
    unfold team_table, team_value_table in Htm_in.
    apply list_elem_of_fmap in Htm_in as (t & -> & Ht). simpl in *.
    exists t. by simplify_eq.
Qed.

Lemma calculate_raw_value_formula_witness :
  int64_stats (sample_stats 30)
  ∧ Prim2SF (calculate_raw_value (sample_stats 30))
    = value_binary64 (sample_stats 30).
Proof.
  assert (Hcells : int64_stats (sample_stats 30)).
  { intros c. unfold int64_cell. destruct c; simpl; lia. }
  split; [exact Hcells |].
  exact (proj1 calculate_raw_value_formula (sample_stats 30) Hcells).
Defined.

(** A row with three carries: the formula is exactly -3.3; the code
    returns -3.3000000000000003, which is neither that fraction nor the
    binary64 number nearest to it. *)
Lemma value_is_rounded :
  ten_times_value three_carries = -33
  ∧ ¬ represents (Prim2SF (calculate_raw_value three_carries)) (-33) 10
  ∧ calculate_raw_value three_carries ≠ (-3.3)%float
  ∧ Prim2SF (-3.3) = SFdec (-33).
Proof.
  split; [reflexivity |]. split; [by vm_compute |].
  split; [| by vm_compute].
  intros Heq. apply (f_equal Prim2SF) in Heq. vm_compute in Heq.
  discriminate.
Qed.

(** ** The orchestrator *)

(** A failed first stage ends the run quietly, nothing stored. *)
Lemma pull_data_no_stats (src : Sources) (self : gmap string pyval) :
  retrieve_player_stats src = None → pull_data src self = (self, Returned).
Proof. intros Hstats. unfold pull_data. by rewrite Hstats. Qed.

Lemma pull_data_success (src : Sources) (self : gmap string pyval)
    (df : list PlayerStat) (meta : list PlayerMeta) (game : list Game) :
  retrieve_player_stats src = Some df →
  retrieve_player_meta src df = Some meta →
  game_data_csv src = Some game →
  pull_data src self
  = (<["model_df" :=
         PyFrame (ModelFrame
           (model_table
              (merge_game meta (game_flat (normalize_games game)))))]>
       (<["games" := PyFrame (GameFrame (normalize_games game))]> self),
     Returned).
Proof.
  intros Hstats Hmeta Hgame. unfold pull_data, add_game_data.
  by rewrite Hstats, Hmeta, Hgame.
Qed.

Lemma holds_insert_other (self : gmap string pyval) (attr : string)
    (v : pyval) (df : DataFrame) :
  v ≠ PyFrame df → ¬ holds self df → ¬ holds (<[attr := v]> self) df.
Proof.
  intros Hv Hno [a Ha]. apply lookup_insert_Some in Ha as [[_ ->] | [_ Ha]];
    [done |].
  apply Hno. by exists a.
Qed.

Lemma init_attrs_hold_no_frame (data_folder : string) (df : DataFrame) :
  ¬ holds (init_attrs data_folder) df.
Proof.
  unfold init_attrs.
  repeat (apply holds_insert_other; [done |]).
  intros [a Ha]. by rewrite lookup_empty in Ha.
Qed.

(** C1 (what the code does when a later stage fails): if the stats are
    retrieved and the metadata stage or the schedule read fails, the run
    does not end quietly: [aggregate_team_stats] is called on [None] and
    the attribute error leaves [pull_data].  When it is the schedule that
    cannot be read the attributes are as before the run; when it is the
    metadata stage that failed and the schedule is read, the schedule has
    been stored under [games] all the same. *)
Theorem pull_data_later_failure_raises (src : Sources)
    (self : gmap string pyval) (df : list PlayerStat) :
  retrieve_player_stats src = Some df →
  retrieve_player_meta src df = None ∨ game_data_csv src = None →
  (pull_data src self).2 = Raised none_has_no_groupby
  ∧ (game_data_csv src = None → (pull_data src self).1 = self)
  ∧ (∀ game, game_data_csv src = Some game →
       (pull_data src self).1
       = <["games" := PyFrame (GameFrame (normalize_games game))]> self).
Proof.
  intros Hstats Hfail. unfold pull_data, add_game_data. rewrite Hstats.
  destruct (game_data_csv src) as [game |] eqn:Hgame.
  - destruct Hfail as [Hmeta | ?]; [| done]. rewrite Hmeta. simpl.
    split; [done |]. split; [done |]. by intros ? [= <-].
  - simpl. split; [done |]. split; [done |]. done.
Qed.

Lemma pull_data_later_failure_raises_witness :
  retrieve_player_stats schedule_unreachable = Some sample_df
  ∧ (retrieve_player_meta schedule_unreachable sample_df = None
     ∨ game_data_csv schedule_unreachable = None)
  ∧ (pull_data schedule_unreachable (init_attrs "data")).2
    = Raised none_has_no_groupby.
Proof.
  split; [reflexivity |]. split; [right; reflexivity |].
  exact (proj1 (pull_data_later_failure_raises schedule_unreachable
                  (init_attrs "data") sample_df eq_refl
                  (or_intror eq_refl))).
Defined.

(** With the schedule unreachable the constructor raises; with the player
    file unreachable it raises as well, and [games] has been set. *)
Example init_schedule_unreachable :
  init "data" schedule_unreachable
  = (init_attrs "data", Raised none_has_no_groupby).
Proof. reflexivity. Qed.

Example init_players_unreachable :
  (init "data" players_unreachable).2 = Raised none_has_no_groupby
  ∧ init_attrs "data" !! "games" = None
  ∧ (init "data" players_unreachable).1 !! "games"
    = Some (PyFrame (GameFrame
        (normalize_games [sample_game "2020-09-13" "KC" "LV" 1]))).
Proof. split; [reflexivity |]. split; by vm_compute. Qed.

(** C2 (as the code has it): after a run in which the three stages
    succeed, [pull_data] returns, [model_df] is the model table of the
    run and [games] is the rebuilt schedule; every other attribute is as
    it was, so the team table of the run is held only if it was held
    before, and a loader that has just been constructed does not hold
    it. *)
Theorem pull_data_success_stores (src : Sources) (self : gmap string pyval)
    (df : list PlayerStat) (meta : list PlayerMeta) (game : list Game) :
  retrieve_player_stats src = Some df →
  retrieve_player_meta src df = Some meta →
  game_data_csv src = Some game →
  let rows := merge_game meta (game_flat (normalize_games game)) in
  (pull_data src self).2 = Returned
  ∧ (pull_data src self).1 !! "model_df"
    = Some (PyFrame (ModelFrame (model_table rows)))
  ∧ (pull_data src self).1 !! "games"
    = Some (PyFrame (GameFrame (normalize_games game)))
  ∧ (∀ attr : string, attr ≠ "model_df" → attr ≠ "games" →
       (pull_data src self).1 !! attr = self !! attr)
  ∧ (¬ holds self (TeamFrame (team_table rows)) →
     ¬ holds (pull_data src self).1 (TeamFrame (team_table rows)))
  ∧ (∀ data_folder : string,
       (init data_folder src).2 = Returned
       ∧ ¬ holds (init data_folder src).1 (TeamFrame (team_table rows))).
Proof.
  intros Hstats Hmeta Hgame rows. unfold init.
  assert (Hrun := pull_data_success src).
  rewrite (Hrun self _ _ _ Hstats Hmeta Hgame). simpl.
  split; [done |].
  split; [by rewrite lookup_insert_eq |].
  split; [rewrite lookup_insert_ne by done; by rewrite lookup_insert_eq |].
  split; [intros attr H1 H2; by rewrite !lookup_insert_ne |].
  split; [intros Hno; by do 2 (apply holds_insert_other; [done |]) |].
  intros data_folder.
  rewrite (Hrun (init_attrs data_folder) _ _ _ Hstats Hmeta Hgame). simpl.
  split; [done |].
  do 2 (apply holds_insert_other; [done |]).
  apply init_attrs_hold_no_frame.
Qed.

Lemma pull_data_success_stores_witness :
  retrieve_player_stats sample_sources = Some sample_df
  ∧ retrieve_player_meta sample_sources sample_df = Some sample_merged
  ∧ game_data_csv sample_sources = Some [sample_game "2020-09-13" "KC" "LV" 1]
  ∧ (pull_data sample_sources (init_attrs "data")).2 = Returned.
Proof.
  do 3 (split; [reflexivity |]).
  exact (proj1 (pull_data_success_stores sample_sources (init_attrs "data")
                  sample_df sample_merged
                  [sample_game "2020-09-13" "KC" "LV" 1]
                  eq_refl eq_refl eq_refl)).
Defined.

(** The sample run succeeds and no attribute of the new loader holds its
    team table; [games_df] is still [None]. *)
Lemma team_table_not_held :
  (init "data" sample_sources).2 = Returned
  ∧ team_table sample_rows ≠ []
  ∧ ¬ holds (init "data" sample_sources).1
        (TeamFrame (team_table sample_rows))
  ∧ (init "data" sample_sources).1 !! "games_df" = Some PyNone.
Proof.
  assert (Hrun := pull_data_success sample_sources (init_attrs "data")
                    sample_df sample_merged
                    [sample_game "2020-09-13" "KC" "LV" 1]
                    eq_refl eq_refl eq_refl).
  unfold init. rewrite Hrun. simpl.
  split; [done |]. split; [by vm_compute |]. split.
  - do 2 (apply holds_insert_other; [done |]).
    apply init_attrs_hold_no_frame.
  - by rewrite !lookup_insert_ne.
Qed.

(** * Further properties *)

(** ** Normal forms of the team codes *)

Section replace_facts.
Context (repl : gmap string string).
Hypothesis values_not_keys : map_Forall (λ _ v, repl !! v = None) repl.

Lemma replace_not_key (code : string) : repl !! replace repl code = None.
Proof.
  unfold replace. destruct (repl !! code) as [v |] eqn:Hcode; [| done].
  by apply (values_not_keys code v).
Qed.

Lemma replace_fixed (code : string) :
  replace repl (replace repl code) = replace repl code.
Proof.
  unfold replace at 1. by rewrite replace_not_key.
Qed.
End replace_facts.

Lemma player_file_repl_values :
  map_Forall (λ _ v, player_file_repl !! v = None) player_file_repl.
Proof. refine (bool_decide_unpack _ _). by vm_compute. Qed.

Lemma games_file_repl_values :
  map_Forall (λ _ v, games_file_repl !! v = None) games_file_repl.
Proof. refine (bool_decide_unpack _ _). by vm_compute. Qed.

(** X1: normalization with either table is idempotent, and a normalized
    code is never a key of its table: one pass of [replace] reaches the
    canonical code. *)
Theorem replace_idempotent (code : string) :
  replace player_file_repl (replace player_file_repl code)
  = replace player_file_repl code
  ∧ replace games_file_repl (replace games_file_repl code)
    = replace games_file_repl code
  ∧ player_file_repl !! replace player_file_repl code = None
  ∧ games_file_repl !! replace games_file_repl code = None.
Proof.
  split; [apply replace_fixed, player_file_repl_values |].
  split; [apply replace_fixed, games_file_repl_values |].
  split; [apply replace_not_key, player_file_repl_values |].
  apply replace_not_key, games_file_repl_values.
Qed.

(** ** [retrieve_player_stats] *)

(** X2: when the stats file is read, [retrieve_player_stats] returns the
    quarterback rows of the file, in file order, with every column but
    the team as it was; every returned row has position QB and a team
    code on which the player-side table has nothing left to replace.  A
    file without quarterback rows gives an empty frame, not a failure. *)
Theorem retrieve_player_stats_quarterbacks (src : Sources)
    (raw : list PlayerStat) :
  player_stats_csv src = Some raw →
  ∃ out : list PlayerStat,
    retrieve_player_stats src = Some out
    ∧ (length out ≤ length raw)%nat
    ∧ Forall (λ r, position r = Some "QB"
                   ∧ player_file_repl !! team r = None) out
    ∧ Forall2
        (λ r r', player_id r' = player_id r
                 ∧ player_name r' = player_name r
                 ∧ player_display_name r' = player_display_name r
                 ∧ season r' = season r ∧ week r' = week r
                 ∧ stats r' = stats r
                 ∧ team r' = replace player_file_repl (team r))
        (filter (λ r, position r = Some "QB") raw) out
    ∧ (Forall (λ r, position r ≠ Some "QB") raw → out = []).
Proof.
  intros Hread. unfold retrieve_player_stats. rewrite Hread. clear Hread.
  simpl. eexists. split; [done |]. split.
  { rewrite length_map. apply length_filter. }
  split.
  { apply Forall_fmap, Forall_forall. intros r Hr.
    apply list_elem_of_filter in Hr as [Hqb _]. unfold compose. simpl.
    split; [exact Hqb |].
    apply replace_not_key, player_file_repl_values. }
  split.
  { apply Forall2_fmap_r, Forall_Forall2_diag, Forall_forall. by intros r _. }
  intros Hnone. induction raw as [| r rest IH]; [done |].
  apply Forall_cons in Hnone as [Hr Hrest].
  rewrite filter_cons_False by done. by apply IH.
Qed.

Lemma retrieve_player_stats_quarterbacks_witness :
  player_stats_csv sample_sources
  = Some [sample_stat "00-1" "LV" 1 30; sample_stat "00-2" "LV" 1 30;
          sample_stat "00-3" "KC" 1 25; sample_stat "00-4" "DEN" 1 40]
  ∧ ∃ out, retrieve_player_stats sample_sources = Some out
           ∧ (length out ≤ 4)%nat.
Proof.
  split; [reflexivity |].
  destruct (retrieve_player_stats_quarterbacks sample_sources _ eq_refl)
    as (out & Hout & Hlen & _).
  exists out. by split.
Defined.

(** ** The flattened schedule *)

Lemma elem_of_game_flat (game : list Game) (f : GameFlat) :
  f ∈ game_flat game ↔ ∃ g, g ∈ game ∧ (f = home_view g ∨ f = away_view g).
Proof.
  unfold game_flat. rewrite elem_of_app. split.
  - intros [Hf | Hf]; apply list_elem_of_fmap in Hf as (g & -> & Hg);
      exists g; auto.
  - intros (g & Hg & [-> | ->]); [left | right];
      by apply list_elem_of_fmap_2.
Qed.

(** X3: the flattened schedule has two rows for each game, its home view
    and its away view, and with each row the row of the other side of the
    same game: same game_id, gameday, season and week, team and opponent
    exchanged, starter and opponent starter exchanged. *)
Theorem game_flat_two_views (game : list Game) :
  length (game_flat game) = (2 * length game)%nat
  ∧ Forall (λ g, home_view g ∈ game_flat game
                 ∧ away_view g ∈ game_flat game) game
  ∧ Forall
      (λ f, ∃ f', f' ∈ game_flat game
                  ∧ flat_game_id f' = flat_game_id f
                  ∧ flat_gameday f' = flat_gameday f
                  ∧ flat_season f' = flat_season f
                  ∧ flat_week f' = flat_week f
                  ∧ flat_team f' = opponent f
                  ∧ opponent f' = flat_team f
                  ∧ starter_id f' = opponent_starter_id f
                  ∧ starter_name f' = opponent_starter_name f
                  ∧ opponent_starter_id f' = starter_id f
                  ∧ opponent_starter_name f' = starter_name f)
      (game_flat game).
Proof.
  split; [unfold game_flat; rewrite length_app, !length_map; lia |].
  split; apply Forall_forall.
  - intros g Hg. split; apply elem_of_game_flat; eauto.
  - intros f Hf. apply elem_of_game_flat in Hf as (g & Hg & [-> | ->]).
    + exists (away_view g). split; [apply elem_of_game_flat; eauto | done].
    + exists (home_view g). split; [apply elem_of_game_flat; eauto | done].
Qed.

(** ** The game merge *)

Lemma elem_of_normalize_games (game : list Game) (g : Game) :
  g ∈ normalize_games game
  ↔ ∃ g0, g0 ∈ game ∧ g = rebuild_game_id (replace_team_names g0).
Proof.
  unfold normalize_games. rewrite map_map, list_elem_of_fmap.
  split; intros (g0 & H1 & H2); exists g0; done.
Qed.

(** X4: in the frame that the game merge returns, every row is a row of
    the input, and the game columns of a row that has them are those of a
    game of its own season and week in which its team is the home team or
    the away team, the opponent being the other side; the game_id is the
    rebuilt id of that game. *)
Theorem merge_game_joins_own_game (meta : list PlayerMeta)
    (game : list Game) :
  Forall
    (λ o, row_meta o ∈ meta
          ∧ ∀ f, row_game o = Some f →
              ∃ g, g ∈ normalize_games game
                   ∧ flat_game_id f = game_id g
                   ∧ flat_gameday f = gameday g
                   ∧ game_season g = season (row_stat o)
                   ∧ game_week g = week (row_stat o)
                   ∧ ((home_team g = team (row_stat o)
                       ∧ opponent f = away_team g)
                      ∨ (away_team g = team (row_stat o)
                         ∧ opponent f = home_team g)))
    (merge_game meta (game_flat (normalize_games game))).
Proof.
  apply Forall_forall. intros o Ho. unfold merge_game in Ho.
  apply merge_left_elem_of in Ho as (r & ob & Hr & -> & Hob). simpl.
  split; [done |]. intros f ->.
  destruct (Hob f eq_refl) as [Hf Hkey].
  apply elem_of_game_flat in Hf as (g & Hg & Hview).
  exists g. split; [done |].
  unfold flat_key, stat_key in Hkey. unfold row_stat. simpl.
  destruct Hview as [-> | ->]; simpl in *; injection Hkey as Hs Hw Ht.
  - do 4 (split; [done |]). by left.
  - do 4 (split; [done |]). by right.
Qed.

(** X5: the schedule-side codes are replaced before the merge, so a
    player row whose team code is a key of the schedule-side table (LA,
    LV, STL or SD) is joined to no game: its game columns are null. *)
Theorem replaced_code_finds_no_game (meta : list PlayerMeta)
    (game : list Game) :
  Forall
    (λ o, is_Some (games_file_repl !! team (row_stat o)) →
          row_game o = None)
    (merge_game meta (game_flat (normalize_games game))).
Proof.
  apply Forall_forall. intros o Ho Hkey. unfold merge_game in Ho.
  apply merge_left_elem_of in Ho as (r & ob & Hr & -> & Hob). simpl.
  destruct ob as [f |]; [| done]. exfalso.
  destruct (Hob f eq_refl) as [Hf Hk].
  unfold row_stat in Hkey. simpl in Hkey.
  assert (Hteam : flat_team f = team (meta_stat r))
    by (unfold flat_key, stat_key in Hk; by injection Hk).
  rewrite <- Hteam in Hkey.
  apply elem_of_game_flat in Hf as (g & Hg & Hview).
  apply elem_of_normalize_games in Hg as (g0 & _ & ->).
  destruct Hkey as [v Hv].
  destruct Hview as [-> | ->]; simpl in Hv;
    by rewrite (replace_not_key _ games_file_repl_values) in Hv.
Qed.

(** A quarterback whose team the stats file calls STL, and the STL home
    game of his week: the schedule side turns STL into LAR, the player
    side leaves it, and the row finds no game. *)
Example stl_row_finds_no_game :
  (map (λ r, (team (row_stat r), row_game_id r))
     <$> (add_game_data relocated_sources ∅
            (retrieve_player_stats relocated_sources
               ≫= retrieve_player_meta relocated_sources)).2)
  = Some [("STL", None)]
  ∧ map game_id (normalize_games [sample_game "2020-09-13" "STL" "KC" 1])
    = ["2020_01_KC_LAR"].
Proof. by vm_compute. Qed.

(** ** The metadata stage *)

Lemma head_take_1 {T : Type} (l : list T) : head (take 1 l) = head l.
Proof. by destruct l. Qed.

(** X6: the player-metadata merge gives a stat row the bio columns of the
    first row of the player file that has its player id, whatever later
    rows with the same id say, and a null bio when the id is null or in
    no row of the file. *)
Theorem merge_player_meta_first_row_wins (df : list PlayerStat)
    (players : list PlayerInfo) :
  Forall2
    (λ r m,
       meta_stat m = r
       ∧ meta_bio m
         = match player_id r with
           | Some pid =>
               from_option info null_bio
                 (head (filter (λ p, gsis_id p = Some pid) players))
           | None => null_bio
           end)
    df (merge_player_meta df players).
Proof.
  rewrite merge_player_meta_map.
  apply Forall2_fmap_r, Forall_Forall2_diag, Forall_forall.
  intros r _. simpl. split; [done |].
  destruct (player_id r) as [pid |].
  - by rewrite groupby_head1_group, head_take_1.
  - by rewrite groupby_head1_null.
Qed.

(** A later row of the player file with the id of an earlier one is not
    used. *)
Example merge_player_meta_duplicate_id :
  map (λ m, draft_number (meta_bio m))
    (merge_player_meta [sample_stat "00-2" "OAK" 1 30]
       [sample_info "00-2" (Some 3); sample_info "00-2" (Some 5)])
  = [Some 3].
Proof. by vm_compute. Qed.

Lemma combine_first_twice {T : Type} (primary fill : option T) :
  combine_first (combine_first primary fill) fill
  = combine_first primary fill.
Proof. by destruct primary, fill. Qed.

Lemma fill_bio_twice (bio : Bio) (fill : option DraftFill) :
  fill_bio (fill_bio bio fill) fill = fill_bio bio fill.
Proof. unfold fill_bio. simpl. by rewrite !combine_first_twice. Qed.

Lemma fill_bio_no_fill (bio : Bio) : fill_bio bio None = bio.
Proof.
  destruct bio as [fn ln bd ry ey dn]. unfold fill_bio. simpl.
  by destruct bd, ry, ey, dn.
Qed.

Lemma backfill_of_no_rows (r : PlayerMeta) : backfill_of [] r = None.
Proof. unfold backfill_of. by destruct (player_id (meta_stat r)). Qed.

(** X7: when the manual file is read, the backfill is idempotent: run on
    its own result it changes nothing more; and with a manual file that
    has no rows it returns the frame it was given. *)
Theorem add_missing_draft_data_idempotent (src : Sources)
    (df : list PlayerMeta) (missing : list DraftFill) :
  missing_draft_csv src = Some missing →
  ∃ out : list PlayerMeta,
    add_missing_draft_data src df = Some out
    ∧ add_missing_draft_data src out = Some out
    ∧ (missing = [] → out = df).
Proof.
  intros Hread. eexists. split; [by apply add_missing_draft_data_map |].
  split.
  - rewrite (add_missing_draft_data_map _ _ _ Hread), map_map. f_equal.
    apply map_ext. intros r. simpl. unfold backfill_of at 1 2. simpl.
    fold (backfill_of missing r). by rewrite fill_bio_twice.
  - intros ->. rewrite <- (map_id df) at 2. apply map_ext. intros r.
    rewrite backfill_of_no_rows, fill_bio_no_fill. by destruct r.
Qed.

Lemma add_missing_draft_data_idempotent_witness :
  missing_draft_csv sample_sources
  = Some [sample_fill "00-1" 7; sample_fill "00-2" 9; sample_fill "00-1" 8]
  ∧ ∃ out : list PlayerMeta,
      add_missing_draft_data sample_sources sample_meta = Some out
      ∧ add_missing_draft_data sample_sources out = Some out.
Proof.
  split; [reflexivity |].
  destruct (add_missing_draft_data_idempotent sample_sources sample_meta
              _ eq_refl) as (out & H1 & H2 & _).
  exists out. by split.
Defined.

(** ** [format_top_passer] *)

Lemma cumcount_from_lookup {A K : Type} `{EqDecision K}
    (key : A → option K) (earlier : list K) (df : list A)
    (i : nat) (r : A) :
  df !! i = Some r →
  cumcount_from key earlier df !! i
  = Some (match key r with
          | Some k =>
              Some (Z.of_nat
                      (length (filter (λ k', k' = k) earlier)
                       + length (filter (λ x, key x = Some k) (take i df))))
          | None => None
          end).
Proof.
  revert earlier i. induction df as [| r0 rest IH]; intros earlier i Hi;
    [done |].
  destruct i as [| i]; simpl in Hi.
  - injection Hi as ->. simpl. destruct (key r) as [k |]; simpl; [| done].
    by rewrite Nat.add_0_r.
  - simpl. destruct (key r0) as [k0 |] eqn:Hk0; simpl.
    + rewrite (IH (k0 :: earlier) i Hi).
      destruct (key r) as [k |]; [| done]. do 3 f_equal.
      rewrite (filter_cons _ k0), (filter_cons _ r0).
      destruct (decide (k0 = k)) as [-> | Hne].
      * rewrite decide_True by done. simpl. lia.
      * rewrite decide_False by (rewrite Hk0; congruence). done.
    + rewrite (IH earlier i Hi).
      destruct (key r) as [k |]; [| done]. do 3 f_equal.
      rewrite (filter_cons_False _ r0) by (rewrite Hk0; congruence). done.
Qed.

(** The row of [format_top_passer] at a position of the frame. *)
Lemma format_top_passer_lookup (df : list PlayerRow) (i : nat)
    (r : PlayerRow) :
  df !! i = Some r →
  format_top_passer df !! i
  = Some {| tp_info :=
              passer_info r
                (match player_id (row_stat r) with
                 | Some pid =>
                     Some (Z.of_nat
                             (length
                                (filter (λ x, player_id (row_stat x) = Some pid)
                                   (take i df))))
                 | None => None
                 end);
            tp_stats := stats (row_stat r) |}.
Proof.
  intros Hi. unfold format_top_passer, cumcount.
  rewrite lookup_zip_with, Hi. simpl.
  rewrite (cumcount_from_lookup _ [] df i r Hi). simpl.
  by destruct (player_id (row_stat r)).
Qed.

Lemma format_top_passer_length (df : list PlayerRow) :
  length (format_top_passer df) = length df.
Proof.
  unfold format_top_passer, cumcount.
  rewrite length_zip_with, cumcount_from_length. lia.
Qed.

(** X8: [format_top_passer] returns one row for each row it is given, in
    order, and the start number of a row is one more than the number of
    rows before it in the frame that have its player id: 1 at the first
    appearance of a player, 2 at the second, and so on; it is null for a
    row whose player id is null. *)
Theorem format_top_passer_start_number (df : list PlayerRow) :
  length (format_top_passer df) = length df
  ∧ ∀ (i : nat) (r : PlayerRow),
      df !! i = Some r →
      ∃ p : TopPasser,
        format_top_passer df !! i = Some p
        ∧ tp_stats p = stats (row_stat r)
        ∧ pi_player_id (tp_info p) = player_id (row_stat r)
        ∧ pi_game_id (tp_info p) = row_game_id r
        ∧ pi_team (tp_info p) = team (row_stat r)
        ∧ start_number (tp_info p)
          = match player_id (row_stat r) with
            | Some pid =>
                Some (Z.of_nat
                        (length
                           (filter (λ x, player_id (row_stat x) = Some pid)
                              (take i df)))
                      + 1)
            | None => None
            end.
Proof.
  split; [apply format_top_passer_length |].
  intros i r Hi. eexists. split; [by apply format_top_passer_lookup |].
  simpl. do 4 (split; [done |]).
  by destruct (player_id (row_stat r)).
Qed.

(** The same passer kept in weeks 1, 2 and 3, another in between. *)
Example start_numbers_count_up :
  map (λ p, (pi_player_id (tp_info p), start_number (tp_info p)))
    (format_top_passer
       (map (λ s, {| row_meta := {| meta_stat := s; meta_bio := null_bio |};
                     row_game := None |})
          [sample_stat "00-1" "OAK" 1 30; sample_stat "00-3" "KC" 1 25;
           sample_stat "00-1" "OAK" 2 28; sample_stat "00-1" "OAK" 3 31]))
  = [(Some "00-1", Some 1); (Some "00-3", Some 1);
     (Some "00-1", Some 2); (Some "00-1", Some 3)].
Proof. by vm_compute. Qed.

(** ** Order and idempotence of [iso_top_passer] *)





(** ** Totals of the team aggregation *)

Lemma sum_Permutation (l l' : list Z) :
  l ≡ₚ l' → foldr Z.add 0 l = foldr Z.add 0 l'.
Proof. induction 1; simpl; lia. Qed.

Section group_sums.
Context {K : Type} `{EqDecision K}.
Context (key : PlayerRow → option K) (c : stat_col).

Lemma sum_other_groups (k0 : K) (r : PlayerRow) (rest : list PlayerRow)
    (ks : list K) :
  key r = Some k0 → k0 ∉ ks →
  map (λ k, column_sum c (group_rows key k (r :: rest))) ks
  = map (λ k, column_sum c (group_rows key k rest)) ks.
Proof.
  intros Hr Hk0. apply map_ext_in. intros k Hk.
  apply list_elem_of_In in Hk. unfold group_rows.
  rewrite filter_cons_False; [done |].
  rewrite Hr. intros [= ->]. done.
Qed.

Lemma sum_own_group (k0 : K) (r : PlayerRow) (rest : list PlayerRow)
    (ks : list K) :
  key r = Some k0 → NoDup ks → k0 ∈ ks →
  foldr Z.add 0
    (map (λ k, column_sum c (group_rows key k (r :: rest))) ks)
  = stat c (stats (row_stat r))
    + foldr Z.add 0 (map (λ k, column_sum c (group_rows key k rest)) ks).
Proof.
  intros Hr Hnd Hin. induction ks as [| k ks IH]; [inversion Hin |].
  apply NoDup_cons in Hnd as [Hk Hnd]. simpl.
  destruct (decide (k = k0)) as [-> | Hne].
  - rewrite (sum_other_groups k0 r rest ks Hr Hk).
    unfold group_rows at 1. rewrite filter_cons_True by done.
    unfold column_sum at 1. simpl. unfold column_sum, group_rows. lia.
  - apply elem_of_cons in Hin as [-> | Hin]; [done |].
    rewrite (IH Hnd Hin).
    unfold group_rows at 1. rewrite filter_cons_False
      by (rewrite Hr; congruence).
    unfold group_rows. lia.
Qed.

Lemma sum_groups (df : list PlayerRow) (ks : list K) :
  NoDup ks →
  (∀ r k, r ∈ df → key r = Some k → k ∈ ks) →
  foldr Z.add 0 (map (λ k, column_sum c (group_rows key k df)) ks)
  = column_sum c (filter (λ r, is_Some (key r)) df).
Proof.
  intros Hnd Hall. induction df as [| r rest IH].
  { clear Hnd Hall. unfold group_rows, column_sum. simpl.
    induction ks as [| k ks IHk]; [done |]. simpl. by rewrite IHk. }
  assert (Hrest : ∀ r' k, r' ∈ rest → key r' = Some k → k ∈ ks)
    by (intros r' k Hr'; apply Hall; by right).
  destruct (key r) as [k0 |] eqn:Hr.
  - rewrite (sum_own_group k0 r rest ks Hr Hnd)
      by (apply (Hall r); [left | done]).
    rewrite (IH Hrest), filter_cons_True by (rewrite Hr; by eexists).
    done.
  - rewrite filter_cons_False by (rewrite Hr; by intros [? ?]).
    rewrite <- (IH Hrest). f_equal. apply map_ext. intros k.
    unfold group_rows. by rewrite filter_cons_False by (rewrite Hr; congruence).
Qed.
End group_sums.

Lemma int64_int64_add (a b : Z) : int64 (int64 a + b) = int64 (a + b).
Proof. by rewrite Z.add_comm, int64_add_int64, Z.add_comm. Qed.

Lemma int64_sum_wrapped {K : Type} (f : K → Z) (ks : list K) :
  int64 (foldr Z.add 0 (map (λ k, int64 (f k)) ks))
  = int64 (foldr Z.add 0 (map f ks)).
Proof.
  induction ks as [| k ks IH]; [done |]. simpl.
  by rewrite int64_int64_add, <- int64_add_int64, IH, int64_add_int64.
Qed.

Lemma sum_nonneg_bound (l : list Z) :
  Forall (λ x, 0 ≤ x) l →
  0 ≤ foldr Z.add 0 l ∧ Forall (λ x, x ≤ foldr Z.add 0 l) l.
Proof.
  induction 1 as [| x l Hx Hl [IH0 IH]]; simpl; [by split |].
  split; [lia |]. constructor; [lia |].
  eapply Forall_impl; [exact IH |]. intros y Hy. simpl in Hy. lia.
Qed.

Lemma team_group_key_is_Some (tf : team_field) (r : PlayerRow) :
  is_Some (team_group_key tf r)
  ↔ is_Some (row_game_id r) ∧ is_Some (row_gameday r).
Proof.
  unfold team_group_key, team_field_cell, row_game_id, row_gameday,
    row_opponent.
  destruct (row_game r) as [g |]; simpl.
  - destruct (flat_gameday g) as [day |]; simpl.
    + destruct tf; simpl; split; intros _; try (by eexists);
        split; by eexists.
    + split; [by intros [? ?] | by intros [_ [? ?]]].
  - split; [by intros [? ?] | by intros [[? ?] _]].
Qed.

(** X10: the team aggregation conserves totals.  For each of the nine
    stats, the sum of the stat over the team rows and its sum over the
    player rows whose game_id and gameday are not null are the same int64
    number, and they are equal outright when the stat is nowhere negative
    in those player rows and their sum is below [2^63]; the stats of the
    other player rows are in no team row. *)
Theorem aggregate_team_stats_conserves_totals (df : list PlayerRow)
    (tf : team_field) (c : stat_col) :
  let team_total :=
    foldr Z.add 0
      (map (λ t, stat c (team_stats t)) (aggregate_team_stats df tf)) in
  let rows :=
    filter (λ r, is_Some (row_game_id r) ∧ is_Some (row_gameday r)) df in
  int64 team_total = int64 (column_sum c rows)
  ∧ (Forall (λ r, 0 ≤ stat c (stats (row_stat r))) rows →
     column_sum c rows < 2 ^ 63 →
     team_total = column_sum c rows).
Proof.
  intros team_total rows.
  set (keys := sort_stable team_key_leb (group_keys (team_group_key tf) df)).
  set (group_sum := λ k, column_sum c (group_rows (team_group_key tf) k df)).
  assert (Hteam : team_total
                  = foldr Z.add 0 (map (λ k, int64 (group_sum k)) keys)).
  { subst team_total. unfold aggregate_team_stats. rewrite map_map.
    f_equal. apply map_ext. intros k.
    by rewrite team_stats_team_row, stat_sum_stats. }
  assert (Hrows : rows = filter (λ r, is_Some (team_group_key tf r)) df).
  { subst rows. apply list_filter_iff. intros r. symmetry.
    apply team_group_key_is_Some. }
  assert (Hexact : foldr Z.add 0 (map group_sum keys) = column_sum c rows).
  { rewrite Hrows.
    rewrite (sum_Permutation _
               (map group_sum (group_keys (team_group_key tf) df)))
      by apply fmap_Permutation, sort_stable_Permutation.
    apply sum_groups; [apply NoDup_remove_dups |].
    intros r k Hr Hk. apply elem_of_group_keys. eauto. }
  split.
  { by rewrite Hteam, int64_sum_wrapped, Hexact. }
  intros Hnonneg Hbound. rewrite Hteam, <- Hexact. f_equal.
  apply map_ext_in. intros k _. apply int64_small.
  assert (Hgroups : Forall (λ x, 0 ≤ x) (map group_sum keys)).
  { apply Forall_fmap, Forall_forall. intros k' _. unfold compose, group_sum.
    unfold column_sum.
    assert (Hsub : Forall (λ r, 0 ≤ stat c (stats (row_stat r)))
                     (group_rows (team_group_key tf) k' df)).
    { apply Forall_forall. intros r Hr.
      apply list_elem_of_filter in Hr as [Hk Hr].
      rewrite Forall_forall in Hnonneg. apply Hnonneg.
      rewrite Hrows. apply list_elem_of_filter. split; [by eexists | done]. }
    induction Hsub as [| r l Hr Hl IH]; simpl; lia. }
  destruct (sum_nonneg_bound _ Hgroups) as [_ Hle].
  rewrite Forall_forall in Hle, Hgroups.
  destruct (decide (k ∈ keys)) as [Hk | Hk].
  - assert (Hin : group_sum k ∈ map group_sum keys)
      by (by apply list_elem_of_fmap_2).
    specialize (Hle _ Hin). specialize (Hgroups _ Hin).
    unfold int64_cell. rewrite Hexact in Hle. lia.
  - assert (Hempty : group_rows (team_group_key tf) k df = []).
    { destruct (group_rows (team_group_key tf) k df) as [| r l] eqn:Hg;
        [done |].
      exfalso. apply Hk. subst keys. rewrite sort_stable_Permutation.
      apply elem_of_group_keys. exists r.
      assert (Hr : r ∈ group_rows (team_group_key tf) k df)
        by (rewrite Hg; left).
      by apply list_elem_of_filter in Hr as [? ?]. }
    unfold group_sum. rewrite Hempty. unfold int64_cell, column_sum.
    simpl. lia.
Qed.

(** ** The model table *)

Lemma format_top_passer_elem_of_row (df : list PlayerRow) (r : PlayerRow) :
  r ∈ df →
  ∃ count, {| tp_info := passer_info r count;
              tp_stats := stats (row_stat r) |} ∈ format_top_passer df.
Proof.
  intros Hr. apply list_elem_of_lookup in Hr as [i Hi].
  eexists. apply list_elem_of_lookup. exists i.
  by apply format_top_passer_lookup.
Qed.

Lemma format_top_passer_elem_of_info (df : list PlayerRow) (p : TopPasser) :
  p ∈ format_top_passer df →
  ∃ r count, r ∈ df ∧ p = {| tp_info := passer_info r count;
                             tp_stats := stats (row_stat r) |}.
Proof.
  intros Hp. apply list_elem_of_lookup in Hp as [i Hi].
  assert (Hlt : (i < length df)%nat).
  { rewrite <- format_top_passer_length. by eapply lookup_lt_Some. }
  apply lookup_lt_is_Some in Hlt as [r Hr].
  rewrite (format_top_passer_lookup df i r Hr) in Hi. injection Hi as <-.
  eexists r, _. split; [| done]. apply list_elem_of_lookup. by exists i.
Qed.

Lemma team_table_has_row (df : list PlayerRow) (r : PlayerRow)
    (gid day : string) :
  r ∈ df → row_game_id r = Some gid → row_gameday r = Some day →
  ∃ t, t ∈ team_table df ∧ tm_game_id t = gid
       ∧ tm_team t = team (row_stat r).
Proof.
  intros Hr Hgid Hday.
  assert (Hkey : team_group_key TeamField r
                 = Some (gid, season (row_stat r), week (row_stat r), day,
                         team (row_stat r))).
  { unfold team_group_key. rewrite Hgid, Hday. done. }
  assert (Hin : (gid, season (row_stat r), week (row_stat r), day,
                 team (row_stat r))
                ∈ map team_row_key (aggregate_team_stats df TeamField)).
  { rewrite aggregate_team_stats_keys, sort_stable_Permutation.
    apply elem_of_group_keys. eauto. }
  apply list_elem_of_fmap in Hin as (t & Ht & Hin).
  exists {| tm_game_id := team_game_id t; tm_season := team_season t;
            tm_week := team_week t; tm_gameday := team_gameday t;
            tm_team := team_team t;
            tm_team_VALUE := calculate_raw_value (team_stats t) |}.
  split.
  - unfold team_table, team_value_table.
    apply list_elem_of_fmap. by exists t.
  - unfold team_row_key in Ht. simpl. by injection Ht as <- _ _ _ <-.
Qed.

(** X11: the final merge loses no kept passer: every row of
    [iso_top_passer] has a row in the model table with its id columns and
    its own value, so the model table has at least as many rows; and a
    model row whose gameday is not null has a team value, the only rows
    without one being rows of a game whose gameday is null, which the
    team aggregation leaves out. *)
Theorem model_table_keeps_passers (df : list PlayerRow) :
  (length (iso_top_passer df) ≤ length (model_table df))%nat
  ∧ Forall
      (λ r, ∃ m, m ∈ model_table df
                 ∧ pi_game_id (model_info m) = row_game_id r
                 ∧ pi_team (model_info m) = team (row_stat r)
                 ∧ pi_player_id (model_info m) = player_id (row_stat r)
                 ∧ player_VALUE m = calculate_raw_value (stats (row_stat r)))
      (iso_top_passer df)
  ∧ Forall
      (λ m, is_Some (pi_gameday (model_info m)) → is_Some (team_VALUE m))
      (model_table df).
Proof.
  split.
  { unfold model_table, merge_team_value, player_value_table.
    etrans; [| apply merge_left_length_ge].
    by rewrite length_map, format_top_passer_length. }
  split; apply Forall_forall.
  - intros r Hr.
    destruct (format_top_passer_elem_of_row _ r Hr) as [count Hp].
    assert (Hpv : (passer_info r count,
                   calculate_raw_value (stats (row_stat r)))
                  ∈ player_value_table (format_top_passer (iso_top_passer df))).
    { unfold player_value_table. apply list_elem_of_fmap.
      eexists. split; [| exact Hp]. done. }
    destruct (merge_left_covers
                (λ r : PasserInfo * float, (pi_game_id r.1, pi_team r.1))
                (λ t, (Some (tm_game_id t), tm_team t))
                (λ r t, {| model_info := r.1; player_VALUE := r.2;
                           team_VALUE := tm_team_VALUE <$> t |})
                _ (team_table df) _ Hpv) as (ot & Hm & _).
    eexists. split; [exact Hm |]. done.
  - intros m Hm Hday. unfold model_table, merge_team_value in Hm.
    apply merge_left_elem_of_cases in Hm as (pv & ot & Hpv & -> & Hot).
    simpl in *. destruct ot as [t |]; [by eexists |]. exfalso.
    unfold player_value_table in Hpv.
    apply list_elem_of_fmap in Hpv as (p & -> & Hp). simpl in *.
    apply format_top_passer_elem_of_info in Hp as (r & count & Hr & ->).
    simpl in *. destruct Hday as [day Hday].
    assert (Hkept : r ∈ df ∧ is_Some (passer_group_key r)).
    { split.
      - apply groupby_head1_subset in Hr.
        by rewrite sort_stable_Permutation in Hr.
      - pose proof (groupby_head1_is_Some passer_group_key
                      (sort_stable top_passer_leb df)) as Hall.
        rewrite Forall_forall in Hall. by apply Hall. }
    destruct Hkept as [Hdf [[gid tm] Hkey]].
    apply passer_group_key_Some in Hkey as [Hgid _].
    destruct (team_table_has_row df r gid day Hdf Hgid Hday)
      as (t & Ht & Htg & Htt).
    apply (Hot t Ht). by rewrite Htg, Htt, Hgid.
Qed.

(** ** Runs of [pull_data] *)

(** X13: what a run can change.  Whatever the reads return, [pull_data]
    leaves every attribute other than [model_df] and [games] as it was;
    [model_df] is as it was unless all four files are read; and when the
    stats file or the schedule cannot be read, no attribute at all is
    changed. *)
Theorem pull_data_frame (src : Sources) (self : gmap string pyval) :
  (∀ attr : string, attr ≠ "model_df" → attr ≠ "games" →
     (pull_data src self).1 !! attr = self !! attr)
  ∧ (player_stats_csv src = None ∨ player_info_csv src = None
     ∨ missing_draft_csv src = None ∨ game_data_csv src = None →
     (pull_data src self).1 !! "model_df" = self !! "model_df")
  ∧ (player_stats_csv src = None ∨ game_data_csv src = None →
     (pull_data src self).1 = self).
Proof.
  unfold pull_data, add_game_data, retrieve_player_stats,
    retrieve_player_meta, add_missing_draft_data.
  destruct (player_stats_csv src) as [stats_rows |]; simpl;
    [| by repeat split].
  destruct (player_info_csv src) as [players |],
    (missing_draft_csv src) as [missing |],
    (game_data_csv src) as [game |]; simpl;
    (split; [intros attr H1 H2; by rewrite ?lookup_insert_ne by done |]);
    (split; [| intros [? | ?]; done]);
    intros Hfail; try done;
    try (by rewrite lookup_insert_ne by done).
  by destruct Hfail as [? | [? | [? | ?]]].
Qed.

Lemma pull_data_frame_witness :
  (player_stats_csv schedule_unreachable = None
   ∨ game_data_csv schedule_unreachable = None)
  ∧ (pull_data schedule_unreachable (init_attrs "data")).1
    = init_attrs "data".
Proof.
  split; [right; reflexivity |].
  exact (proj2 (proj2 (pull_data_frame schedule_unreachable
                         (init_attrs "data")))
           (or_intror eq_refl)).
Defined.

(** X14: a run on the same reads is idempotent on the state: a second
    [pull_data] ends as the first did and leaves the attributes as the
    first left them. *)
Theorem pull_data_idempotent (src : Sources) (self : gmap string pyval) :
  pull_data src (pull_data src self).1 = pull_data src self.
Proof.
  unfold pull_data, add_game_data.
  destruct (retrieve_player_stats src) as [df |]; [| done].
  destruct (game_data_csv src) as [game |];
    destruct (retrieve_player_meta src df) as [meta |]; simpl; try done.
  - f_equal.
    rewrite (insert_insert_ne _ "games" "model_df") by done.
    by rewrite !insert_insert_eq.
  - by rewrite insert_insert_eq.
Qed.
